(** * hawaiidashboard: the metric-loading and chart-rendering pipeline

    A shallow embedding of the two script variants of the dashboard,

    - [Site]  : src/site/assets/main.js (themed, with download links and a
                tooltip formatter, four panels),
    - [Plain] : src/unnamed/part_000    (unstyled, two panels),

    over a small model of the JavaScript values the scripts handle, the
    document they write to, and the two asynchronous collaborators they
    call ([fetch] and the charting library). *)

From Stdlib Require Import ZArith QArith Ascii String DecimalString.
From stdpp Require Import gmap strings list fin_maps.

Local Open Scope string_scope.
Local Open Scope Z_scope.

Set Warnings "-register-all".

(** ** The host: numbers and dates

    JavaScript numbers are IEEE doubles and their textual forms are
    produced by the runtime ([Number::toString], [Intl] number and date
    formatting, [Date.parse]).  None of the scripts computes with numbers;
    they only pass them around and ask the runtime to print them.  The
    runtime services are therefore an interface. *)

Class Host := {
  (** the Number type *)
  num : Type;
  (** the Number for an integer; used for [ToNumber(null)], [ToNumber(true)] *)
  number_of_Z : Z -> num;
  (** [ToBoolean] on a Number: false exactly at zero and NaN *)
  number_truthy : num -> bool;
  (** [Number::toString], the conversion a template literal applies *)
  number_toString : num -> string;
  (** [n.toLocaleString(undefined, {maximumFractionDigits: d})]: the
      runtime's default locale, grouping included; [None] leaves the
      option unset *)
  number_toLocaleString : num -> option nat -> string;
  (** the time value of a valid Date *)
  time : Type;
  (** [TimeClip]: the time value of a Number, [None] for NaN *)
  time_clip : num -> option time;
  (** [Date.parse]: [None] for NaN *)
  Date_parse : string -> option time;
  (** [Date.prototype.toLocaleString()] of a valid Date, in the viewer's
      locale and time zone *)
  time_toLocaleString : time -> string
}.

(** ** Characters that a string literal cannot hold directly *)

Definition dq : string := String "034"%char "".
Definition nl : string := String "010"%char "".

(** [q s] is [s] between double quotes, as in [href="..."]. *)
Definition q (s : string) : string := dq +:+ s +:+ dq.

Section Values.
Context `{host : Host}.

(** ** JavaScript values

    What [res.json()] can produce, plus [undefined], which property access
    produces.  Objects keep their members in document order. *)

Inductive value : Type :=
| VUndef
| VNull
| VBool (b : bool)
| VNum (n : num)
| VStr (s : string)
| VArr (items : list value)
| VObj (members : list (string * value)).

(** [ToBoolean]. *)
Definition truthy (v : value) : bool :=
  match v with
  | VUndef | VNull => false
  | VBool b => b
  | VNum n => number_truthy n
  | VStr s => negb (String.eqb s "")
  | VArr _ | VObj _ => true
  end.

(** [a || b]. *)
Definition js_or (a b : value) : value := if truthy a then a else b.

(** The first member named [k]. *)
Fixpoint member (k : string) (ms : list (string * value)) : value :=
  match ms with
  | [] => VUndef
  | (k', v) :: r => if String.eqb k k' then v else member k r
  end.

(** Whether an object has a member named [k] of its own. *)
Definition has_own (k : string) (ms : list (string * value)) : bool :=
  existsb (fun kv => String.eqb k (fst kv)) ms.

(** Errors the scripts can see.  [Error] is what [loadMetric] throws
    itself; the other classes are raised by the runtime or by a
    collaborator. *)
Inductive error : Type :=
| Error (message : string)
| TypeError (message : string)
| SyntaxError (message : string)
| ReferenceError (message : string).

(** [ToString], the conversion applied by [${...}] and by [" " + x].
    [Array.prototype.toString] joins with commas and prints [null] and
    [undefined] members as nothing.  An object is converted through its
    [toString] method: the inherited one prints [[object Object]]; an
    own member named [toString] hides it, and as no member of parsed
    JSON is callable (and neither [valueOf] gives a primitive) the
    conversion then throws. *)
Fixpoint ToString (v : value) : error + string :=
  match v with
  | VUndef => inr "undefined"
  | VNull => inr "null"
  | VBool true => inr "true"
  | VBool false => inr "false"
  | VNum n => inr (number_toString n)
  | VStr s => inr s
  | VArr items =>
      (fix join (l : list value) : error + string :=
         match l with
         | [] => inr ""
         | x :: r =>
             match match x with
                   | VUndef | VNull => inr ""
                   | _ => ToString x
                   end with
             | inl e => inl e
             | inr sx =>
                 match r with
                 | [] => inr sx
                 | _ =>
                     match join r with
                     | inl e => inl e
                     | inr sr => inr (sx +:+ "," +:+ sr)
                     end
                 end
             end
         end) items
  | VObj ms =>
      if has_own "toString" ms
      then inl (TypeError "Cannot convert object to primitive value")
      else inr "[object Object]"
  end.

(** The values [ToString] converts: no object with a [toString] member
    of its own, in an array neither. *)
Fixpoint printable (v : value) : bool :=
  match v with
  | VArr items => forallb printable items
  | VObj ms => negb (has_own "toString" ms)
  | _ => true
  end.

(** [v.k] for the property names the scripts read ([years], [hawaii],
    [other_states_avg], [title], [unit], [source], [notes], [human_url],
    [last_updated_utc]).  None of them is defined on a primitive's or an
    array's prototype, so reading one from a non-object gives
    [undefined]; reading from [null] or [undefined] throws. *)
Definition get_field (v : value) (k : string) : error + value :=
  match v with
  | VUndef => inl (TypeError ("Cannot read properties of undefined (reading '" +:+ k +:+ "')"))
  | VNull => inl (TypeError ("Cannot read properties of null (reading '" +:+ k +:+ "')"))
  | VObj ms => inr (member k ms)
  | _ => inr VUndef
  end.

(** [new Date(v)]: the time value, [None] for an invalid Date.  A string
    is parsed; [undefined] is NaN; [null] and booleans go through
    [ToNumber]; arrays and objects go through [ToPrimitive], which for
    JSON data ends in the [toString] method and so throws where
    [ToString] does. *)
Definition new_Date (v : value) : error + option time :=
  match v with
  | VUndef => inr None
  | VNull => inr (time_clip (number_of_Z 0))
  | VBool b => inr (time_clip (number_of_Z (if b then 1 else 0)))
  | VNum n => inr (time_clip n)
  | VStr s => inr (Date_parse s)
  | VArr _ | VObj _ =>
      match ToString v with
      | inl e => inl e
      | inr s => inr (Date_parse s)
      end
  end.

(** [d.toLocaleString()] on a Date. *)
Definition Date_toLocaleString (d : option time) : string :=
  match d with
  | None => "Invalid Date"
  | Some t => time_toLocaleString t
  end.

End Values.

(** ** The chart configuration handed to the charting library

    The object literal of [makeLineChart].  A property that one of the two
    variants leaves out is an option that is [None] there. *)

Section Charts.
Context `{host : Host}.

Record Dataset := {
  label : string;
  data : value;
  borderColor : option string;
  backgroundColor : option string;
  borderWidth : Z;
  borderDash : option (list Z);
  tension : Q;
  pointRadius : option Z
}.

(** [ctx.parsed.y] as the charting library's linear scale parses a data
    point: a Number, or [null] for a missing point. *)
Inductive parsed : Type :=
| PNull
| PUndefined
| PNumber (n : num).

(** The argument of the tooltip's [label] callback: one row of the
    tooltip. *)
Record TooltipItem := {
  dataset : Dataset;
  parsed_y : parsed
}.

Record TitleOpts := {
  display : bool;
  text : value
}.

Record ChartOptions := {
  responsive : bool;
  interaction_mode : string;
  interaction_intersect : bool;
  plugins_title : TitleOpts;
  legend_position : string;
  tooltip_label : option (TooltipItem -> error + string);
  y_title : TitleOpts;
  y_ticks_callback : value -> value;
  x_autoSkip : bool;
  x_maxTicksLimit : Z
}.

Record ChartData := {
  labels : value;
  datasets : list Dataset
}.

Record ChartConfig := {
  chart_type : string;
  chart_data : ChartData;
  chart_options : ChartOptions
}.

(** A 2d drawing context is known by the canvas it belongs to. *)
Inductive context2d : Type :=
| Ctx2d (canvas_id : string).

(** A constructed chart. *)
Record Chart := {
  chart_ctx : option context2d;
  chart_config : ChartConfig
}.

(** The number of points of a series. *)
Definition point_count (v : value) : option nat :=
  match v with
  | VArr items => Some (length items)
  | _ => None
  end.

End Charts.

(** ** The page, the collaborators and the effects of a script *)

Section Effects.
Context `{host : Host}.

(** An element is a canvas (whose 2d context may or may not be
    obtainable) or any other element.  Its children are what the last
    write to [innerHTML] or [textContent] left. *)
Inductive element_kind : Type :=
| Canvas (has_2d : bool)
| Block.

Inductive children : Type :=
| Markup (html : string)
| TextNode (text : string).

Record element := {
  kind : element_kind;
  content : children
}.

Inductive cache_mode : Type :=
| CacheDefault
| NoStore.

(** What the script does that is visible outside it, in program order. *)
Inductive event : Type :=
| EFetch (url : string) (cache : cache_mode)
| ENewChart (ctx : option context2d) (cfg : ChartConfig)
| ESetInnerHTML (id : string) (html : string)
| ESetTextContent (id : string) (text : string)
| EConsoleError (e : error).

(** The body of a response, as [res.json()] settles: never, rejected
    because the text is not JSON, or fulfilled with the parsed value. *)
Inductive body_result : Type :=
| BodyPending
| BodyInvalid
| BodyJson (v : value).

Record response := {
  status : nat;
  body : body_result
}.

(** [res.ok]: the status is in the range 200-299. *)
Definition ok (res : response) : bool :=
  (200 <=? status res)%nat && (status res <=? 299)%nat.

(** How the promise of [fetch] settles: never, rejected (the network
    failed), or fulfilled with a response. *)
Inductive fetch_result : Type :=
| FetchPending
| FetchReject
| FetchResponse (res : response).

(** The collaborators: the transport behind [fetch] and the constructor
    of the charting library, which may throw.  The library is loaded:
    [Chart] is defined when the script runs. *)
Record Env := {
  network : string -> cache_mode -> fetch_result;
  Chart_constructor : option context2d -> ChartConfig -> option error
}.

(** How a computation ends: with a value, with an exception, or waiting
    for ever on a promise that never settles. *)
Inductive completion (A : Type) : Type :=
| Ret (a : A)
| Throw (e : error)
| Pending.
Arguments Ret {A} a.
Arguments Throw {A} e.
Arguments Pending {A}.

(** A run of a computation: the document it leaves (by element id), the
    events it caused, in order, and how it ended. *)
Record result (A : Type) := {
  dom_after : gmap string element;
  events : list event;
  outcome : completion A
}.
Arguments dom_after {A} r.
Arguments events {A} r.
Arguments outcome {A} r.

Definition M (A : Type) : Type := Env -> gmap string element -> result A.

Definition ret {A} (a : A) : M A :=
  fun _ d => {| dom_after := d; events := []; outcome := Ret a |}.

Definition throw {A} (e : error) : M A :=
  fun _ d => {| dom_after := d; events := []; outcome := Throw e |}.

(** A run that comes after the events [evs]. *)
Definition prepend {A} (evs : list event) (r : result A) : result A :=
  {| dom_after := dom_after r; events := evs ++ events r; outcome := outcome r |}.

Definition bind {A B} (m : M A) (k : A -> M B) : M B :=
  fun env d =>
    let r := m env d in
    match outcome r with
    | Ret a => prepend (events r) (k a env (dom_after r))
    | Throw e => {| dom_after := dom_after r; events := events r; outcome := Throw e |}
    | Pending => {| dom_after := dom_after r; events := events r; outcome := Pending |}
    end.

(** [try { m } catch (e) { h e }]. *)
Definition try_catch {A} (m : M A) (h : error -> M A) : M A :=
  fun env d =>
    let r := m env d in
    match outcome r with
    | Throw e => prepend (events r) (h e env (dom_after r))
    | _ => r
    end.

Definition emit (ev : event) : M unit :=
  fun _ d => {| dom_after := d; events := [ev]; outcome := Ret tt |}.

(** [await fetch(url, { cache })]. *)
Definition fetch (url : string) (cache : cache_mode) : M response :=
  fun env d =>
    {| dom_after := d;
       events := [EFetch url cache];
       outcome := match network env url cache with
                  | FetchPending => Pending
                  | FetchReject => Throw (TypeError "Failed to fetch")
                  | FetchResponse res => Ret res
                  end |}.

(** [await res.json()]. *)
Definition json (res : response) : M value :=
  fun _ d =>
    {| dom_after := d;
       events := [];
       outcome := match body res with
                  | BodyPending => Pending
                  | BodyInvalid => Throw (SyntaxError "Unexpected token in JSON")
                  | BodyJson v => Ret v
                  end |}.

(** [document.getElementById(id)]: the element, known by its id, or
    [null]. *)
Definition getElementById (id : string) : M (option string) :=
  fun _ d =>
    {| dom_after := d;
       events := [];
       outcome := Ret (match d !! id with Some _ => Some id | None => None end) |}.

(** [el.getContext("2d")]. *)
Definition getContext2d (el : option string) : M (option context2d) :=
  fun _ d =>
    {| dom_after := d;
       events := [];
       outcome :=
         match el with
         | None => Throw (TypeError "Cannot read properties of null (reading 'getContext')")
         | Some id =>
             match kind <$> d !! id with
             | Some (Canvas true) => Ret (Some (Ctx2d id))
             | Some (Canvas false) => Ret None
             | _ => Throw (TypeError "getContext is not a function")
             end
         end |}.

(** Replacing the children of an element, which keeps its kind.  The
    page is the elements the scripts look up by id, each on its own:
    the model is of pages on which no canvas or container of a panel
    lies inside the container of a panel, and it does not follow the
    elements that written markup creates. *)
Definition set_children (id : string) (c : children) (d : gmap string element)
  : gmap string element :=
  match d !! id with
  | Some e => <[id := {| kind := kind e; content := c |}]> d
  | None => d
  end.

(** [el.innerHTML = html]. *)
Definition set_innerHTML (el : option string) (html : string) : M unit :=
  fun _ d =>
    match el with
    | None =>
        {| dom_after := d; events := [];
           outcome := Throw (TypeError "Cannot set properties of null (setting 'innerHTML')") |}
    | Some id =>
        {| dom_after := set_children id (Markup html) d;
           events := [ESetInnerHTML id html];
           outcome := Ret tt |}
    end.

(** [el.textContent = text]. *)
Definition set_textContent (el : option string) (text : string) : M unit :=
  fun _ d =>
    match el with
    | None =>
        {| dom_after := d; events := [];
           outcome := Throw (TypeError "Cannot set properties of null (setting 'textContent')") |}
    | Some id =>
        {| dom_after := set_children id (TextNode text) d;
           events := [ESetTextContent id text];
           outcome := Ret tt |}
    end.

(** [console.error(e)]. *)
Definition console_error (e : error) : M unit := emit (EConsoleError e).

(** [new Chart(ctx, cfg)]. *)
Definition new_Chart (ctx : option context2d) (cfg : ChartConfig) : M Chart :=
  fun env d =>
    {| dom_after := d;
       events := [ENewChart ctx cfg];
       outcome := match Chart_constructor env ctx cfg with
                  | Some e => Throw e
                  | None => Ret {| chart_ctx := ctx; chart_config := cfg |}
                  end |}.

(** An evaluation that may throw, inside a computation. *)
Definition lift {A} (r : error + A) : M A :=
  match r with
  | inl e => throw e
  | inr a => ret a
  end.

(** A property read inside a computation. *)
Definition field (v : value) (k : string) : M value := lift (get_field v k).

End Effects.

Arguments Ret {A} a.
Arguments Throw {A} e.
Arguments Pending {A}.
Arguments dom_after {host A} r.
Arguments events {host A} r.
Arguments outcome {host A} r.

Declare Scope js_scope.
Delimit Scope js_scope with js.
Notation "'let*' x ':=' m 'in' k" := (bind m (fun x => k))
  (at level 10, x name, m at level 100, k at level 200) : js_scope.
Notation "'do' m 'then' k" := (bind m (fun _ => k))
  (at level 10, m at level 100, k at level 200) : js_scope.
Local Open Scope js_scope.

(** ** Pieces shared by the two variants

    [(payload.notes || []).map(n => `<li>${n}</li>`).join("")] and the
    source line are written the same way in both files. *)

Section Formatting.
Context `{host : Host}.

(** [xs.join("")] on strings. *)
Definition join (xs : list string) : string := foldr String.append "" xs.

(** [`<li>${n}</li>`], once [n] is converted. *)
Definition li_of (s : string) : string := "<li>" +:+ s +:+ "</li>".

(** [n => `<li>${n}</li>`]. *)
Definition li (n : value) : error + string :=
  match ToString n with
  | inl e => inl e
  | inr s => inr (li_of s)
  end.

(** [items.map(n => `<li>${n}</li>`)]: the items are converted in
    order, and the first conversion that throws ends the call. *)
Fixpoint map_li (items : list value) : error + list string :=
  match items with
  | [] => inr []
  | n :: rest =>
      match li n with
      | inl e => inl e
      | inr x =>
          match map_li rest with
          | inl e => inl e
          | inr xs => inr (x :: xs)
          end
      end
  end.

(** [v.map(n => `<li>${n}</li>`).join("")]: only an array has [map]. *)
Definition map_li_join (v : value) : M string :=
  match v with
  | VArr items =>
      match map_li items with
      | inl e => throw e
      | inr xs => ret (join xs)
      end
  | VUndef => throw (TypeError "Cannot read properties of undefined (reading 'map')")
  | VNull => throw (TypeError "Cannot read properties of null (reading 'map')")
  | _ => throw (TypeError "(payload.notes || []).map is not a function")
  end.

(** The anchor of the source line. *)
Definition source_link (url : string) : string :=
  "<a href=" +:+ q url +:+ " target=" +:+ q "_blank" +:+ " rel="
    +:+ q "noopener" +:+ ">Source</a>".

Definition source_fallback : string := "Source: federal API".

(** [src.human_url ? `<a href="${src.human_url}" ...>Source</a>`
                   : "Source: federal API"]. *)
Definition srcLine (human_url : value) : error + string :=
  if truthy human_url then
    match ToString human_url with
    | inl e => inl e
    | inr s => inr (source_link s)
    end
  else inr source_fallback.

(** [notes ? `<ul>${notes}</ul>` : ""], on the joined items. *)
Definition notes_block (notes : string) : string :=
  if negb (String.eqb notes "") then "<ul>" +:+ notes +:+ "</ul>" else "".

(** [new Date(v).toLocaleString()]. *)
Definition updated (v : value) : error + string :=
  match new_Date v with
  | inl e => inl e
  | inr d => inr (Date_toLocaleString d)
  end.

End Formatting.

(** ** src/site/assets/main.js *)

Module Site.

(** The colours read from the style sheet when the script starts. *)
Record Theme := {
  BRAND : string;
  HI : string;
  OTHER : string
}.

Section Script.
Context `{host : Host} (theme : Theme).

Definition loadMetric (slug : string) : M value :=
  let* res := fetch ("data/v1/" +:+ slug +:+ ".json") NoStore in
  if negb (ok res) then throw (Error ("Failed to load " +:+ slug))
  else json res.

(** The tooltip's [label] callback. *)
Definition tooltip_label_callback (unit : value) (ctx : TooltipItem)
  : error + string :=
  let v := parsed_y ctx in
  match (if truthy unit then
           match ToString unit with
           | inl e => inl e
           | inr s => inr (" " +:+ s)
           end
         else inr "") with
  | inl e => inl e
  | inr suffix =>
      inr (label (dataset ctx) +:+ ": "
             +:+ match v with
                 | PNull | PUndefined => "—"
                 | PNumber n => number_toLocaleString n (Some 2%nat)
                 end
             +:+ suffix)
  end.

(** The object literal given to [new Chart]. *)
Definition line_chart_config (years hawaii other title unit : value) : ChartConfig :=
  {| chart_type := "line";
     chart_data :=
       {| labels := years;
          datasets :=
            [ {| label := "Hawaiʻi"; data := hawaii;
                 borderColor := Some (HI theme); backgroundColor := Some (HI theme);
                 borderWidth := 2; borderDash := None;
                 tension := 2 # 10; pointRadius := Some 2 |};
              {| label := "Other U.S. States (avg)"; data := other;
                 borderColor := Some (OTHER theme); backgroundColor := Some (OTHER theme);
                 borderWidth := 2; borderDash := Some [6; 4];
                 tension := 2 # 10; pointRadius := Some 2 |} ] |};
     chart_options :=
       {| responsive := true;
          interaction_mode := "index";
          interaction_intersect := false;
          plugins_title := {| display := true; text := title |};
          legend_position := "bottom";
          tooltip_label := Some (tooltip_label_callback unit);
          y_title := {| display := truthy unit; text := js_or unit (VStr "") |};
          y_ticks_callback := fun v => v;
          x_autoSkip := true;
          x_maxTicksLimit := 10 |} |}.

Definition makeLineChart (ctx : option context2d)
    (years hawaii other title unit : value) : M Chart :=
  new_Chart ctx (line_chart_config years hawaii other title unit).

Definition jsonUrl (slug : string) : string := "data/v1/" +:+ slug +:+ ".json".
Definition csvUrl (slug : string) : string := "data/v1/csv/" +:+ slug +:+ ".csv".

(** The two download anchors of the template; the second one has two
    spaces before [target], as in the source. *)
Definition json_anchor (slug : string) : string :=
  "<a href=" +:+ q (jsonUrl slug) +:+ " target=" +:+ q "_blank"
    +:+ " rel=" +:+ q "noopener" +:+ ">Download JSON</a>".

Definition csv_anchor (slug : string) : string :=
  "<a href=" +:+ q (csvUrl slug) +:+ "  target=" +:+ q "_blank"
    +:+ " rel=" +:+ q "noopener" +:+ ">Download CSV</a>".

(** The two lines of the template that hold them. *)
Definition download_links (slug : string) : string :=
  "      " +:+ json_anchor slug +:+ " ·" +:+ nl
    +:+ "      " +:+ csv_anchor slug.

(** The template literal assigned to [innerHTML]. *)
Definition meta_html (slug : string) (src_line upd notes : string) : string :=
  nl +:+ "    <div>" +:+ src_line +:+ " · Updated: " +:+ upd +:+ " ·" +:+ nl
    +:+ download_links slug +:+ "</div>" +:+ nl
    +:+ "    " +:+ notes_block notes +:+ nl +:+ "  ".

Definition setMetaAndDownloads (slug containerId : string) (payload : value) : M unit :=
  let* el := getElementById containerId in
  let* source := field payload "source" in
  let src := js_or source (VObj []) in
  let* notes_v := field payload "notes" in
  let* notes := map_li_join (js_or notes_v (VArr [])) in
  let* human_url := field src "human_url" in
  let* src_line := lift (srcLine human_url) in
  let* last_updated_utc := field payload "last_updated_utc" in
  let* upd := lift (updated last_updated_utc) in
  set_innerHTML el (meta_html slug src_line upd notes).

(** The statements of a [try] block that follow the awaited load: the
    call of [makeLineChart], whose arguments are evaluated left to right,
    and the call of [setMetaAndDownloads]. *)
Definition after_load (slug chartId metaId : string) (payload : value) : M unit :=
  let* canvas := getElementById chartId in
  let* ctx := getContext2d canvas in
  let* years := field payload "years" in
  let* hawaii := field payload "hawaii" in
  let* other := field payload "other_states_avg" in
  let* title := field payload "title" in
  let* unit := field payload "unit" in
  do makeLineChart ctx years hawaii other title unit then
  setMetaAndDownloads slug metaId payload.

(** A [try] block: [const x = await loadMetric(slug); ...]. *)
Definition try_block (slug chartId metaId : string) : M unit :=
  let* payload := loadMetric slug in
  after_load slug chartId metaId payload.

(** A [catch (e)] block. *)
Definition catch_block (metaId unavailable : string) (e : error) : M unit :=
  let* t := getElementById metaId in
  do (match t with
      | Some _ => set_textContent t unavailable
      | None => ret tt
      end) then
  console_error e.

(** One [try { ... } catch (e) { ... }] statement of the script. *)
Definition panel (slug chartId metaId unavailable : string) : M unit :=
  try_catch (try_block slug chartId metaId) (catch_block metaId unavailable).

(** The script's body. *)
Definition main : M unit :=
  do panel "public_health_ypll75_rate" "chart-ypll" "meta-ypll"
       "YPLL data unavailable." then
  do panel "public_health_uninsured_share" "chart-uninsured" "meta-uninsured"
       "Uninsured data unavailable." then
  do panel "broadband_adoption_households_share" "chart-broadband" "meta-broadband"
       "Broadband data unavailable." then
  panel "electricity_renewables_generation_share" "chart-renewables" "meta-renewables"
    "Renewables data unavailable.".

End Script.
End Site.

(** ** src/unnamed/part_000 *)

Module Plain.
Section Script.
Context `{host : Host}.

Definition loadMetric (slug : string) : M value :=
  let* res := fetch ("data/v1/" +:+ slug +:+ ".json") NoStore in
  if negb (ok res) then throw (Error ("Failed to load " +:+ slug))
  else json res.

(** The object literal given to [new Chart]. *)
Definition line_chart_config (years hawaii other title unit : value) : ChartConfig :=
  {| chart_type := "line";
     chart_data :=
       {| labels := years;
          datasets :=
            [ {| label := "Hawaiʻi"; data := hawaii;
                 borderColor := None; backgroundColor := None;
                 borderWidth := 2; borderDash := None;
                 tension := 2 # 10; pointRadius := None |};
              {| label := "Other U.S. States (avg)"; data := other;
                 borderColor := None; backgroundColor := None;
                 borderWidth := 2; borderDash := None;
                 tension := 2 # 10; pointRadius := None |} ] |};
     chart_options :=
       {| responsive := true;
          interaction_mode := "index";
          interaction_intersect := false;
          plugins_title := {| display := true; text := title |};
          legend_position := "bottom";
          tooltip_label := None;
          y_title := {| display := truthy unit; text := js_or unit (VStr "") |};
          y_ticks_callback := fun v => v;
          x_autoSkip := true;
          x_maxTicksLimit := 10 |} |}.

Definition makeLineChart (ctx : option context2d)
    (years hawaii other title unit : value) : M Chart :=
  new_Chart ctx (line_chart_config years hawaii other title unit).

(** The template literal assigned to [innerHTML]. *)
Definition meta_html (src_line upd notes : string) : string :=
  nl +:+ "    <div>" +:+ src_line +:+ " · Updated: " +:+ upd +:+ "</div>" +:+ nl
    +:+ "    " +:+ notes_block notes +:+ nl +:+ "  ".

Definition setMeta (el : option string) (payload : value) : M unit :=
  let* source := field payload "source" in
  let src := js_or source (VObj []) in
  let* notes_v := field payload "notes" in
  let* notes := map_li_join (js_or notes_v (VArr [])) in
  let* human_url := field src "human_url" in
  let* src_line := lift (srcLine human_url) in
  let* last_updated_utc := field payload "last_updated_utc" in
  let* upd := lift (updated last_updated_utc) in
  set_innerHTML el (meta_html src_line upd notes).

(** The statements of a [try] block that follow the awaited load: the
    call of [makeLineChart], whose arguments are evaluated left to right,
    and the call of [setMeta]. *)
Definition after_load (chartId metaId : string) (payload : value) : M unit :=
  let* canvas := getElementById chartId in
  let* ctx := getContext2d canvas in
  let* years := field payload "years" in
  let* hawaii := field payload "hawaii" in
  let* other := field payload "other_states_avg" in
  let* title := field payload "title" in
  let* unit := field payload "unit" in
  do makeLineChart ctx years hawaii other title unit then
  let* el := getElementById metaId in
  setMeta el payload.

(** A [try] block: [const x = await loadMetric(slug); ...]. *)
Definition try_block (slug chartId metaId : string) : M unit :=
  let* payload := loadMetric slug in
  after_load chartId metaId payload.

(** A [catch (e)] block; the element is not checked for [null]. *)
Definition catch_block (metaId unavailable : string) (e : error) : M unit :=
  let* t := getElementById metaId in
  do set_textContent t unavailable then
  console_error e.

(** One [try { ... } catch (e) { ... }] statement of the script. *)
Definition panel (slug chartId metaId unavailable : string) : M unit :=
  try_catch (try_block slug chartId metaId) (catch_block metaId unavailable).

(** The script's body. *)
Definition main : M unit :=
  do panel "broadband_adoption_households_share" "chart-broadband" "meta-broadband"
       "Broadband data unavailable." then
  panel "electricity_renewables_generation_share" "chart-renewables" "meta-renewables"
    "Renewables data unavailable.".

End Script.
End Plain.

(** ** The document shape of the data model

    A metric document as the data model describes it: what a well-formed
    snapshot holds.  [payload_of] is the value [res.json()] yields for it;
    an optional field that is absent is not a member of the object. *)

Module Doc.
Section Shape.
Context `{host : Host}.

Inductive period : Type :=
| Year (n : num)
| Label (s : string).

Record Source := {
  human_url : option string
}.

Record MetricDocument := {
  slug : string;
  title : string;
  unit : option string;
  years : list period;
  hawaii : list (option num);
  other_states_avg : list (option num);
  source : option Source;
  last_updated_utc : string;
  notes : option (list string)
}.

Definition period_value (p : period) : value :=
  match p with
  | Year n => VNum n
  | Label s => VStr s
  end.

(** A series: a number, or [null] where the value is absent. *)
Definition series (xs : list (option num)) : value :=
  VArr (map (fun o => match o with Some n => VNum n | None => VNull end) xs).

Definition optional (k : string) (o : option value) : list (string * value) :=
  match o with
  | Some v => [(k, v)]
  | None => []
  end.

Definition source_value (s : Source) : value :=
  VObj (optional "human_url" (VStr <$> human_url s)).

Definition payload_of (d : MetricDocument) : value :=
  VObj ([("slug", VStr (slug d)); ("title", VStr (title d))]
        ++ optional "unit" (VStr <$> unit d)
        ++ [("years", VArr (map period_value (years d)));
            ("hawaii", series (hawaii d));
            ("other_states_avg", series (other_states_avg d))]
        ++ optional "source" (source_value <$> source d)
        ++ [("last_updated_utc", VStr (last_updated_utc d))]
        ++ optional "notes" ((fun ns => VArr (map VStr ns)) <$> notes d)).

(** The notes of a document, none when the field is absent. *)
Definition notes_of (d : MetricDocument) : list string :=
  default [] (notes d).

(** The human-readable source URL of a document, when it has one. *)
Definition human_url_of (d : MetricDocument) : option string :=
  s ← source d; human_url s.

(** The required fields of the document shape. *)
Definition has_required_fields (v : value) : bool :=
  match v with
  | VObj ms =>
      forallb (fun k => existsb (fun kv => String.eqb k (fst kv)) ms)
        ["years"; "hawaii"; "other_states_avg"; "title"]
  | _ => false
  end.

End Shape.
End Doc.

(** ** Reading the markup back

    What a reader of the written markup finds in it: the list items, and
    the target of a leading anchor. *)

(** [s] without the leading [p], when it starts with it. *)
Fixpoint strip_prefix (p s : string) : option string :=
  match p with
  | "" => Some s
  | String a p' =>
      match s with
      | "" => None
      | String b s' => if Ascii.eqb a b then strip_prefix p' s' else None
      end
  end.




(** The characters before the first double quote. *)
Fixpoint until_dq (s : string) : option string :=
  match s with
  | "" => None
  | String c s' =>
      if Ascii.eqb "034"%char c then Some ""
      else String c <$> until_dq s'
  end.

(** Whether a character occurs in a string. *)
Fixpoint occurs (c : ascii) (s : string) : bool :=
  match s with
  | "" => false
  | String a s' => Ascii.eqb c a || occurs c s'
  end.

(** The value of the [href] attribute of an anchor that opens [markup].
    A parser of markup decodes the character references of an attribute
    value; this reader decodes none, and so reads a value only when it
    holds no ampersand. *)
Definition href_of (markup : string) : option string :=
  rest ← strip_prefix ("<a href=" +:+ dq) markup;
  u ← until_dq rest;
  if occurs "&"%char u then None else Some u.



(** ** A runtime for running the scripts on examples

    A Number is kept as its decimal literal and printed as written (the
    examples use literals of at most two fraction digits and no more
    than three integer digits, which a locale prints unchanged); a date is
    kept as its ISO text, which is also how this runtime's locale prints
    it; a string parses as a date when it has the 20 characters of
    [YYYY-MM-DDTHH:MM:SSZ]. *)

#[export] Instance sample_host : Host := {|
  num := string;
  number_of_Z := fun z => NilZero.string_of_int (Z.to_int z);
  number_truthy := fun x => negb (String.eqb x "0");
  number_toString := fun x => x;
  number_toLocaleString := fun x _ => x;
  time := string;
  time_clip := fun x => Some x;
  Date_parse := fun s => if (String.length s =? 20)%nat then Some s else None;
  time_toLocaleString := fun t => t
|}.

Section Examples.

Definition sample_theme : Site.Theme :=
  {| Site.BRAND := "#0b5"; Site.HI := "#06c"; Site.OTHER := "#888" |}.

(** The document of the end-to-end example:
    [{years:[2019,2020], hawaii:[1.0,null], other_states_avg:[2.0,2.5],
      title:"T", unit:"%"}], with a source, a timestamp and one note. *)
Definition sample_doc : Doc.MetricDocument :=
  {| Doc.slug := "broadband_adoption_households_share";
     Doc.title := "T";
     Doc.unit := Some "%";
     Doc.years := [Doc.Year "2019"; Doc.Year "2020"];
     Doc.hawaii := [Some "1.0"; None];
     Doc.other_states_avg := [Some "2.0"; Some "2.5"];
     Doc.source := Some {| Doc.human_url := Some "https://data.census.gov/" |};
     Doc.last_updated_utc := "2024-05-01T00:00:00Z";
     Doc.notes := Some ["ACS 5-year estimates."] |}.

(** A page with the canvases and metadata containers of all four panels. *)
Definition sample_page : gmap string element :=
  list_to_map
    [ ("chart-ypll", {| kind := Canvas true; content := Markup "" |});
      ("meta-ypll", {| kind := Block; content := Markup "" |});
      ("chart-uninsured", {| kind := Canvas true; content := Markup "" |});
      ("meta-uninsured", {| kind := Block; content := Markup "" |});
      ("chart-broadband", {| kind := Canvas true; content := Markup "" |});
      ("meta-broadband", {| kind := Block; content := Markup "" |});
      ("chart-renewables", {| kind := Canvas true; content := Markup "" |});
      ("meta-renewables", {| kind := Block; content := Markup "" |}) ].

Definition respond (status : nat) (b : body_result) : fetch_result :=
  FetchResponse {| status := status; body := b |}.

(** A transport that answers every request with the sample document,
    except the YPLL metric, which is not found. *)
Definition sample_env : Env :=
  {| network := fun url _ =>
       if String.eqb url "data/v1/public_health_ypll75_rate.json"
       then respond 404 BodyInvalid
       else respond 200 (BodyJson (Doc.payload_of sample_doc));
     Chart_constructor := fun _ _ => None |}.

(** A transport on which the first request of each script never settles. *)
Definition stalled_env : Env :=
  {| network := fun url _ =>
       if String.eqb url "data/v1/public_health_ypll75_rate.json"
          || String.eqb url "data/v1/broadband_adoption_households_share.json"
       then FetchPending
       else respond 200 (BodyJson (Doc.payload_of sample_doc));
     Chart_constructor := fun _ _ => None |}.


(** The sample document with a source URL that is the empty string. *)
Definition empty_url_doc : Doc.MetricDocument :=
  {| Doc.slug := Doc.slug sample_doc;
     Doc.title := Doc.title sample_doc;
     Doc.unit := Doc.unit sample_doc;
     Doc.years := Doc.years sample_doc;
     Doc.hawaii := Doc.hawaii sample_doc;
     Doc.other_states_avg := Doc.other_states_avg sample_doc;
     Doc.source := Some {| Doc.human_url := Some "" |};
     Doc.last_updated_utc := Doc.last_updated_utc sample_doc;
     Doc.notes := Doc.notes sample_doc |}.

(** A payload whose [notes] is a string instead of an array. *)
Definition string_notes_payload : value :=
  VObj [("title", VStr "T"); ("notes", VStr "n/a")].

(** A transport that answers every request with the given body. *)
Definition env_serving (v : value) : Env :=
  {| network := fun _ _ => respond 200 (BodyJson v);
     Chart_constructor := fun _ _ => None |}.

End Examples.

(** ** Properties stated of the pipeline

    The predicates the theorems below are stated with. *)

Section Properties.
Context `{host : Host}.

(** A panel of a page: its metric, its canvas, its metadata container and
    the text shown when the metric is unavailable. *)
Record panel_spec := {
  p_slug : string;
  p_chart : string;
  p_meta : string;
  p_unavailable : string
}.

(** The panels of src/site/assets/main.js, in the order of the script. *)
Definition site_panels : list panel_spec :=
  [ {| p_slug := "public_health_ypll75_rate"; p_chart := "chart-ypll";
       p_meta := "meta-ypll"; p_unavailable := "YPLL data unavailable." |};
    {| p_slug := "public_health_uninsured_share"; p_chart := "chart-uninsured";
       p_meta := "meta-uninsured"; p_unavailable := "Uninsured data unavailable." |};
    {| p_slug := "broadband_adoption_households_share"; p_chart := "chart-broadband";
       p_meta := "meta-broadband"; p_unavailable := "Broadband data unavailable." |};
    {| p_slug := "electricity_renewables_generation_share"; p_chart := "chart-renewables";
       p_meta := "meta-renewables"; p_unavailable := "Renewables data unavailable." |} ].

(** The panels of src/unnamed/part_000. *)
Definition plain_panels : list panel_spec := drop 2 site_panels.

(** The path [loadMetric] reads for a metric. *)
Definition metric_url (slug : string) : string := "data/v1/" +:+ slug +:+ ".json".

(** Running the panels of a list one after another, as the scripts do
    with their [try] statements. *)
Fixpoint in_turn (panel : panel_spec -> M unit) (ps : list panel_spec) : M unit :=
  match ps with
  | [] => ret tt
  | [p] => panel p
  | p :: rest => do panel p then in_turn panel rest
  end.

Definition site_panel (theme : Site.Theme) (p : panel_spec) : M unit :=
  Site.panel theme (p_slug p) (p_chart p) (p_meta p) (p_unavailable p).

Definition plain_panel (p : panel_spec) : M unit :=
  Plain.panel (p_slug p) (p_chart p) (p_meta p) (p_unavailable p).

(** The [try] block of a panel, on its own. *)
Definition site_try (theme : Site.Theme) (p : panel_spec) : M unit :=
  Site.try_block theme (p_slug p) (p_chart p) (p_meta p).

Definition plain_try (p : panel_spec) : M unit :=
  Plain.try_block (p_slug p) (p_chart p) (p_meta p).

(** The load of a metric settles: the transport answers or fails, and
    the body of a successful answer arrives. *)
Definition settles (env : Env) (slug : string) : bool :=
  match network env (metric_url slug) NoStore with
  | FetchPending => false
  | FetchReject => true
  | FetchResponse res =>
      negb (ok res) || match body res with BodyPending => false | _ => true end
  end.

(** "A body missing required fields yields a failure": every successful
    response whose body is JSON without one of the required fields makes
    the load throw. *)
Definition rejects_malformed_body (load : string -> M value)
    (env : Env) (d : gmap string element) (slug : string) : Prop :=
  forall res v,
    network env (metric_url slug) NoStore = FetchResponse res ->
    ok res = true ->
    body res = BodyJson v ->
    Doc.has_required_fields v = false ->
    exists e, outcome (load slug env d) = Throw e.

(** *** The metadata fragment of a payload

    [describe]: the markup a formatter computes from a payload before it
    assigns it to [innerHTML], or the error it throws on the way.
    [template] is the variant's template literal. *)

Definition fragment_of (template : string -> string -> string -> string)
    (payload : value) : error + string :=
  match get_field payload "source" with
  | inl e => inl e
  | inr source =>
  match get_field payload "notes" with
  | inl e => inl e
  | inr notes_v =>
  match js_or notes_v (VArr []) with
  | VArr items =>
      match map_li items with
      | inl e => inl e
      | inr lis =>
      match get_field (js_or source (VObj [])) "human_url" with
      | inl e => inl e
      | inr human_url =>
      match srcLine human_url with
      | inl e => inl e
      | inr src_line =>
      match get_field payload "last_updated_utc" with
      | inl e => inl e
      | inr last_updated_utc =>
      match updated last_updated_utc with
      | inl e => inl e
      | inr upd => inr (template src_line upd (join lis))
      end end end end end
  | VUndef => inl (TypeError "Cannot read properties of undefined (reading 'map')")
  | VNull => inl (TypeError "Cannot read properties of null (reading 'map')")
  | _ => inl (TypeError "(payload.notes || []).map is not a function")
  end end end.

(** Assigning a computed fragment to the [innerHTML] of an element. *)
Definition assign (el : option string) (fragment : error + string)
    (d : gmap string element) : result unit :=
  match fragment with
  | inl e => {| dom_after := d; events := []; outcome := Throw e |}
  | inr html =>
      match el with
      | Some id =>
          {| dom_after := set_children id (Markup html) d;
             events := [ESetInnerHTML id html];
             outcome := Ret tt |}
      | None =>
          {| dom_after := d; events := [];
             outcome :=
               Throw (TypeError "Cannot set properties of null (setting 'innerHTML')") |}
      end
  end.

(** [document.getElementById(id)] as a value. *)
Definition element_ref (d : gmap string element) (id : string) : option string :=
  match d !! id with
  | Some _ => Some id
  | None => None
  end.

(** *** The metadata fragment of a document

    What [describe(document)] amounts to: the parts of the markup the
    formatters assign to [innerHTML] when the payload is a document of
    the data model. *)

Definition human_url_value (d : Doc.MetricDocument) : value :=
  from_option VStr VUndef (Doc.human_url_of d).

Definition source_line (d : Doc.MetricDocument) : string :=
  if truthy (human_url_value d)
  then source_link (default "" (Doc.human_url_of d))
  else source_fallback.

Definition updated_text (d : Doc.MetricDocument) : string :=
  Date_toLocaleString (Date_parse (Doc.last_updated_utc d)).

Definition note_items (d : Doc.MetricDocument) : string :=
  join (map li_of (Doc.notes_of d)).

Definition site_fragment (slug : string) (d : Doc.MetricDocument) : string :=
  Site.meta_html slug (source_line d) (updated_text d) (note_items d).

Definition plain_fragment (d : Doc.MetricDocument) : string :=
  Plain.meta_html (source_line d) (updated_text d) (note_items d).


(** "A present [source.human_url] gives a hyperlink pointing at exactly
    that URL". *)
Definition links_to_source_url (d : Doc.MetricDocument) : Prop :=
  forall u, Doc.human_url_of d = Some u -> href_of (source_line d) = Some u.

(** The URL the source line links to: the human-readable URL when it is
    present and not the empty string. *)
Definition linked_url (d : Doc.MetricDocument) : option string :=
  u ← Doc.human_url_of d; if String.eqb u "" then None else Some u.

(** Text that stands for itself inside a double-quoted attribute: it
    holds no double quote, which would end the value, and no ampersand,
    which would start a character reference. *)
Definition attribute_text (s : string) : bool :=
  negb (occurs "034"%char s) && negb (occurs "&"%char s).

(** The URL can stand inside a double-quoted attribute. *)
Definition attribute_safe (d : Doc.MetricDocument) : bool :=
  from_option attribute_text true (Doc.human_url_of d).

(** A [notes] member the formatters can list: absent or otherwise
    falsy, or an array. *)
Definition listable (v : value) : bool :=
  negb (truthy v) || match v with VArr _ => true | _ => false end.

(** The value the source line is made of: [human_url] of
    [payload.source || {}]. *)
Definition source_url (ms : list (string * value)) : value :=
  match get_field (js_or (member "source" ms) (VObj [])) "human_url" with
  | inr u => u
  | inl _ => VUndef
  end.

(** The three fields the formatters convert can be converted: the notes,
    the source URL and the timestamp. *)
Definition printable_fields (ms : list (string * value)) : bool :=
  printable (member "notes" ms) && printable (source_url ms)
    && printable (member "last_updated_utc" ms).

(** "The formatter never throws". *)
Definition never_throws {A} (r : result A) : Prop :=
  forall e, outcome r <> Throw e.

(** *** The chart of a document *)

Definition years_value (d : Doc.MetricDocument) : value :=
  VArr (map Doc.period_value (Doc.years d)).

Definition unit_value (d : Doc.MetricDocument) : value :=
  from_option VStr VUndef (Doc.unit d).

(** [render(surface, document)]: [makeLineChart] on the fields a [try]
    block reads from the document. *)
Definition site_render (theme : Site.Theme) (ctx : option context2d)
    (d : Doc.MetricDocument) : M Chart :=
  Site.makeLineChart theme ctx (years_value d) (Doc.series (Doc.hawaii d))
    (Doc.series (Doc.other_states_avg d)) (VStr (Doc.title d)) (unit_value d).

Definition plain_render (ctx : option context2d) (d : Doc.MetricDocument) : M Chart :=
  Plain.makeLineChart ctx (years_value d) (Doc.series (Doc.hawaii d))
    (Doc.series (Doc.other_states_avg d)) (VStr (Doc.title d)) (unit_value d).

(** "The comparison-average series is set apart from the region series
    by a dashed stroke". *)
Definition average_is_dashed (cfg : ChartConfig) : Prop :=
  exists region average,
    datasets (chart_data cfg) = [region; average] /\
    borderDash region = None /\ is_Some (borderDash average).


(** The unit after a displayed value. *)
Definition unit_suffix (unit : option string) : string :=
  match unit with
  | Some u => if String.eqb u "" then "" else " " +:+ u
  | None => ""
  end.

(** *** The rows of a tooltip

    The charting library is not part of the repository.  With the
    interaction mode [index] that [makeLineChart] sets, the library gives
    a tooltip one item per series at the hovered index, and it collects
    no item for a point it has marked as skipped, which is how it marks
    a point whose value is [null].  [index_items] is that collection for
    series of numbers and [null]s, as the documents of the data model
    have them. *)

(** The point of a series at an index. *)
Definition point (i : nat) (v : value) : option value :=
  match v with
  | VArr points => points !! i
  | _ => None
  end.

Definition index_items (cfg : ChartConfig) (i : nat) : list TooltipItem :=
  omap (fun ds =>
          match point i (data ds) with
          | Some (VNum n) => Some {| dataset := ds; parsed_y := PNumber n |}
          | _ => None
          end)
       (datasets (chart_data cfg)).

(** The rows a tooltip displays at an index: the [label] callback on
    each item. *)
Definition tooltip_rows (cfg : ChartConfig) (i : nat) : list (error + string) :=
  match tooltip_label (chart_options cfg) with
  | Some row => map row (index_items cfg i)
  | None => []
  end.

(** "An absent value displays as a placeholder in the tooltip row
    rather than being omitted": at an index where a series has no
    value, the tooltip has the row of that series, holding the
    placeholder. *)
Definition gaps_show_placeholder (cfg : ChartConfig) (unit : option string) : Prop :=
  forall i ds,
    ds ∈ datasets (chart_data cfg) ->
    point i (data ds) = Some VNull ->
    inr (label ds +:+ ": —" +:+ unit_suffix unit) ∈ tooltip_rows cfg i.

(** *** The blocks of a panel, by what they read

    The run of the statements after a load, written out as a function of
    the two elements it looks up: [config] is the variant's chart
    configuration and [template] its template literal. *)

(** [document.getElementById(c).getContext("2d")], given the element. *)
Definition context_for (c : string) (el : option element)
  : error + option context2d :=
  match el with
  | None => inl (TypeError "Cannot read properties of null (reading 'getContext')")
  | Some e =>
      match kind e with
      | Canvas true => inr (Some (Ctx2d c))
      | Canvas false => inr None
      | Block => inl (TypeError "getContext is not a function")
      end
  end.

(** The configuration built from the five fields read from the payload. *)
Definition config_for
    (config : value -> value -> value -> value -> value -> ChartConfig)
    (payload : value) : error + ChartConfig :=
  match get_field payload "years" with
  | inl e => inl e
  | inr years =>
  match get_field payload "hawaii" with
  | inl e => inl e
  | inr hawaii =>
  match get_field payload "other_states_avg" with
  | inl e => inl e
  | inr other =>
  match get_field payload "title" with
  | inl e => inl e
  | inr title =>
  match get_field payload "unit" with
  | inl e => inl e
  | inr unit => inr (config years hawaii other title unit)
  end end end end end.

Definition thrown {A} (d : gmap string element) (evs : list event) (e : error)
  : result A :=
  {| dom_after := d; events := evs; outcome := Throw e |}.

Definition render_then_describe
    (config : value -> value -> value -> value -> value -> ChartConfig)
    (template : string -> string -> string -> string)
    (c m : string) (payload : value) : M unit :=
  fun env d =>
    match context_for c (d !! c) with
    | inl e => thrown d [] e
    | inr ctx =>
        match config_for config payload with
        | inl e => thrown d [] e
        | inr cfg =>
            match Chart_constructor env ctx cfg with
            | Some e => thrown d [ENewChart ctx cfg] e
            | None =>
                prepend [ENewChart ctx cfg]
                  (assign (element_ref d m) (fragment_of template payload) d)
            end
        end
    end.

(** A [try] block in the same form. *)
Definition load_then (after : value -> M unit) (slug : string) : M unit :=
  fun env d =>
    match network env (metric_url slug) NoStore with
    | FetchPending =>
        {| dom_after := d; events := [EFetch (metric_url slug) NoStore];
           outcome := Pending |}
    | FetchReject =>
        thrown d [EFetch (metric_url slug) NoStore] (TypeError "Failed to fetch")
    | FetchResponse res =>
        if ok res then
          match body res with
          | BodyPending =>
              {| dom_after := d; events := [EFetch (metric_url slug) NoStore];
                 outcome := Pending |}
          | BodyInvalid =>
              thrown d [EFetch (metric_url slug) NoStore]
                (SyntaxError "Unexpected token in JSON")
          | BodyJson v => prepend [EFetch (metric_url slug) NoStore] (after v env d)
          end
        else thrown d [EFetch (metric_url slug) NoStore]
               (Error ("Failed to load " +:+ slug))
    end.

(** A [catch] block in the same form; [guarded] tells whether the block
    checks the container for [null] before it writes the fallback text. *)
Definition catch_plan (guarded : bool) (m unavailable : string) (e : error) : M unit :=
  fun env d =>
    match element_ref d m with
    | Some _ =>
        {| dom_after := set_children m (TextNode unavailable) d;
           events := [ESetTextContent m unavailable; EConsoleError e];
           outcome := Ret tt |}
    | None =>
        if guarded then
          {| dom_after := d; events := [EConsoleError e]; outcome := Ret tt |}
        else
          thrown d []
            (TypeError "Cannot set properties of null (setting 'textContent')")
    end.

(** A whole [try]/[catch] statement in the same form. *)
Definition panel_plan (guarded : bool)
    (config : value -> value -> value -> value -> value -> ChartConfig)
    (template : string -> string -> string -> string)
    (p : panel_spec) : M unit :=
  try_catch
    (load_then (render_then_describe config template (p_chart p) (p_meta p)) (p_slug p))
    (catch_plan guarded (p_meta p) (p_unavailable p)).

(** *** The order of the panels *)

Definition is_new_chart (ev : event) : bool :=
  match ev with
  | ENewChart _ _ => true
  | _ => false
  end.

(** "Every panel is launched without waiting on any other panel": the
    load of each panel is issued whatever becomes of the other loads. *)
Definition launches_every_panel (main : M unit) (ps : list panel_spec)
    (env : Env) (d : gmap string element) : Prop :=
  forall p, p ∈ ps -> EFetch (metric_url (p_slug p)) NoStore ∈ events (main env d).

(** Events that end a panel's pipeline: the metadata is written, or the
    failure is reported. *)
Definition closes_panel (ev : event) : bool :=
  match ev with
  | ESetInnerHTML _ _ | EConsoleError _ => true
  | _ => false
  end.

Definition is_fetch (ev : event) : bool :=
  match ev with
  | EFetch _ _ => true
  | _ => false
  end.

(** An event inside a pipeline: neither a load nor the end of a panel. *)
Definition inner (ev : event) : Prop := is_fetch ev = false /\ closes_panel ev = false.

(** The events of panels run strictly one after another: each panel's
    pipeline opens with its load; either it runs to its end, and only
    then the next panel's load is issued, or it does not end and nothing
    follows it. *)
Inductive in_sequence : list string -> list event -> Prop :=
| seq_end : in_sequence [] []
| seq_open url urls t :
    Forall inner t ->
    in_sequence (url :: urls) (EFetch url NoStore :: t)
| seq_next url urls t last rest :
    Forall inner t ->
    closes_panel last = true ->
    in_sequence urls rest ->
    in_sequence (url :: urls) (EFetch url NoStore :: t ++ last :: rest).

End Properties.

(** ** Reading a run

    What the further theorems below observe of a run. *)

Section Observations.
Context `{host : Host}.

(** The requests of a trace, in order. *)
Fixpoint requests (evs : list event) : list (string * cache_mode) :=
  match evs with
  | [] => []
  | EFetch url cache :: rest => (url, cache) :: requests rest
  | _ :: rest => requests rest
  end.

(** The element an event writes to. *)
Definition written (ev : event) : option string :=
  match ev with
  | ESetInnerHTML id _ | ESetTextContent id _ => Some id
  | _ => None
  end.

(** The elements a trace writes to, in order. *)
Definition writes (evs : list event) : list string := omap written evs.

(** The chart constructions of a trace. *)
Definition charts (evs : list event) : list event :=
  filter (fun ev => is_new_chart ev = true) evs.

(** The errors a trace reports on the console. *)
Fixpoint reports (evs : list event) : list error :=
  match evs with
  | [] => []
  | EConsoleError e :: rest => e :: reports rest
  | _ :: rest => reports rest
  end.

(** Every load of the panels settles. *)
Definition all_settle (env : Env) (ps : list panel_spec) : bool :=
  forallb (fun p => settles env (p_slug p)) ps.

(** The context a canvas gives. *)
Definition context_of (c : string) (has_2d : bool) : option context2d :=
  if has_2d then Some (Ctx2d c) else None.

(** The run of a panel whose [try] block threw [e] after the events
    [evs]: the fallback text is written and the error reported. *)
Definition reported (p : panel_spec) (d : gmap string element)
    (evs : list event) (e : error) : result unit :=
  {| dom_after := set_children (p_meta p) (TextNode (p_unavailable p)) d;
     events := EFetch (metric_url (p_slug p)) NoStore
                 :: evs ++ [ESetTextContent (p_meta p) (p_unavailable p);
                            EConsoleError e];
     outcome := Ret tt |}.

(** The configuration a script builds from the members of an object. *)
Definition config_of_members
    (config : value -> value -> value -> value -> value -> ChartConfig)
    (ms : list (string * value)) : ChartConfig :=
  config (member "years" ms) (member "hawaii" ms) (member "other_states_avg" ms)
    (member "title" ms) (member "unit" ms).

End Observations.

(** ** Failures that stay in their panel *)

Section Containment.
Context `{host : Host}.




End Containment.

(** ** More examples *)

Section MoreExamples.

(** The YPLL panel, which only src/site/assets/main.js has, and the
    broadband panel, which both scripts have. *)
Definition ypll_panel : panel_spec :=
  {| p_slug := "public_health_ypll75_rate"; p_chart := "chart-ypll";
     p_meta := "meta-ypll"; p_unavailable := "YPLL data unavailable." |}.

Definition broadband_panel : panel_spec :=
  {| p_slug := "broadband_adoption_households_share"; p_chart := "chart-broadband";
     p_meta := "meta-broadband"; p_unavailable := "Broadband data unavailable." |}.

(** The chart configuration src/site/assets/main.js builds for the
    sample document. *)
Definition sample_config : ChartConfig :=
  Site.line_chart_config sample_theme (years_value sample_doc)
    (Doc.series (Doc.hawaii sample_doc))
    (Doc.series (Doc.other_states_avg sample_doc))
    (VStr (Doc.title sample_doc)) (unit_value sample_doc).

Definition renewables_panel : panel_spec :=
  {| p_slug := "electricity_renewables_generation_share"; p_chart := "chart-renewables";
     p_meta := "meta-renewables"; p_unavailable := "Renewables data unavailable." |}.



End MoreExamples.

(** * Theorems *)

(** ** Running computations *)

Section Runs.
Context `{host : Host}.

Lemma prepend_nil {A} (r : result A) : prepend [] r = r.
Proof. by destruct r. Qed.

Lemma bind_run {A B} (m : M A) (k : A -> M B) env d :
  bind m k env d =
  match outcome (m env d) with
  | Ret a => prepend (events (m env d)) (k a env (dom_after (m env d)))
  | Throw e =>
      {| dom_after := dom_after (m env d); events := events (m env d); outcome := Throw e |}
  | Pending =>
      {| dom_after := dom_after (m env d); events := events (m env d); outcome := Pending |}
  end.
Proof. reflexivity. Qed.

Lemma try_catch_run {A} (m : M A) (h : error -> M A) env d :
  try_catch m h env d =
  match outcome (m env d) with
  | Throw e => prepend (events (m env d)) (h e env (dom_after (m env d)))
  | _ => m env d
  end.
Proof. reflexivity. Qed.

(** Binding a step that causes no event and leaves the document alone. *)
Lemma bind_lift {A B} (r : error + A) (f : A -> M B) env d :
  bind (lift r) f env d =
  match r with
  | inl e => {| dom_after := d; events := []; outcome := Throw e |}
  | inr x => f x env d
  end.
Proof.
  rewrite bind_run. unfold lift.
  destruct r; cbn; [done | by rewrite prepend_nil].
Qed.

Lemma bind_field {B} v k (f : value -> M B) env d :
  bind (field v k) f env d =
  match get_field v k with
  | inl e => {| dom_after := d; events := []; outcome := Throw e |}
  | inr x => f x env d
  end.
Proof. apply bind_lift. Qed.

Lemma bind_getElementById {B} id (f : option string -> M B) env d :
  bind (getElementById id) f env d =
  f (match d !! id with Some _ => Some id | None => None end) env d.
Proof. rewrite bind_run. cbn. by rewrite prepend_nil. Qed.

Lemma bind_getContext2d {B} el (f : option context2d -> M B) env d :
  bind (getContext2d el) f env d =
  match el with
  | None =>
      {| dom_after := d; events := [];
         outcome := Throw (TypeError "Cannot read properties of null (reading 'getContext')") |}
  | Some id =>
      match kind <$> d !! id with
      | Some (Canvas true) => f (Some (Ctx2d id)) env d
      | Some (Canvas false) => f None env d
      | _ => {| dom_after := d; events := [];
                outcome := Throw (TypeError "getContext is not a function") |}
      end
  end.
Proof.
  rewrite bind_run. unfold getContext2d. cbn.
  destruct el as [id|]; [|done].
  destruct (kind <$> d !! id) as [[[]|]|]; cbn; by rewrite ?prepend_nil.
Qed.

Lemma bind_map_li_join {B} v (f : string -> M B) env d :
  bind (map_li_join v) f env d =
  match v with
  | VArr items =>
      match map_li items with
      | inl e => {| dom_after := d; events := []; outcome := Throw e |}
      | inr xs => f (join xs) env d
      end
  | VUndef =>
      {| dom_after := d; events := [];
         outcome := Throw (TypeError "Cannot read properties of undefined (reading 'map')") |}
  | VNull =>
      {| dom_after := d; events := [];
         outcome := Throw (TypeError "Cannot read properties of null (reading 'map')") |}
  | _ =>
      {| dom_after := d; events := [];
         outcome := Throw (TypeError "(payload.notes || []).map is not a function") |}
  end.
Proof.
  rewrite bind_run. destruct v; cbn; rewrite ?prepend_nil; try done.
  destruct (map_li items); cbn; by rewrite ?prepend_nil.
Qed.

Lemma bind_new_Chart {B} ctx cfg (f : Chart -> M B) env d :
  bind (new_Chart ctx cfg) f env d =
  match Chart_constructor env ctx cfg with
  | Some e => {| dom_after := d; events := [ENewChart ctx cfg]; outcome := Throw e |}
  | None =>
      prepend [ENewChart ctx cfg] (f {| chart_ctx := ctx; chart_config := cfg |} env d)
  end.
Proof.
  rewrite bind_run. unfold new_Chart. cbn.
  by destruct (Chart_constructor env ctx cfg).
Qed.

End Runs.

(** ** The loader *)

Section Loader.
Context `{host : Host}.

Lemma Plain_loadMetric_is_Site slug : Plain.loadMetric slug = Site.loadMetric slug.
Proof. reflexivity. Qed.

(** A run of [loadMetric] in closed form. *)
Lemma loadMetric_run env d slug :
  Site.loadMetric slug env d =
  {| dom_after := d;
     events := [EFetch (metric_url slug) NoStore];
     outcome :=
       match network env (metric_url slug) NoStore with
       | FetchPending => Pending
       | FetchReject => Throw (TypeError "Failed to fetch")
       | FetchResponse res =>
           if ok res then
             match body res with
             | BodyPending => Pending
             | BodyInvalid => Throw (SyntaxError "Unexpected token in JSON")
             | BodyJson v => Ret v
             end
           else Throw (Error ("Failed to load " +:+ slug))
       end |}.
Proof.
  unfold Site.loadMetric, metric_url, bind, fetch, throw, json; cbn.
  destruct (network env _ NoStore) as [| |res]; cbn; try reflexivity.
  destruct (ok res); cbn; reflexivity.
Qed.

(** C8: every call of [loadMetric], in either script, issues exactly one
    request, for the path [data/v1/<slug>.json] built from the slug as
    given, with the cache mode [no-store]; it writes nothing to the
    document; and when that one read fails (the transport rejects, or
    the status is not a success) the call throws at once, with no second
    request. *)
Theorem loadMetric_reads_once env d slug :
  let r := Site.loadMetric slug env d in
  Plain.loadMetric slug env d = r /\
  events r = [EFetch ("data/v1/" +:+ slug +:+ ".json") NoStore] /\
  length (filter (fun ev => is_fetch ev = true) (events r)) = 1%nat /\
  dom_after r = d /\
  match network env ("data/v1/" +:+ slug +:+ ".json") NoStore with
  | FetchPending => outcome r = Pending
  | FetchReject => outcome r = Throw (TypeError "Failed to fetch")
  | FetchResponse res =>
      if ok res then True
      else outcome r = Throw (Error ("Failed to load " +:+ slug))
  end.
Proof.
  cbn zeta. split; [reflexivity |].
  rewrite loadMetric_run. cbn [events dom_after outcome].
  do 3 (split; [reflexivity |]).
  unfold metric_url.
  destruct (network env _ NoStore) as [| |res]; try reflexivity.
  destruct (ok res); [exact I | reflexivity].
Qed.

(** C2, as the code has it: the outcome of [loadMetric] is decided by the
    transport alone.  A response whose status is not a success makes it
    throw [Error "Failed to load <slug>"] without reading the body; a
    successful response whose body is not JSON makes it throw the
    parser's [SyntaxError]; a successful response with a JSON body makes
    it return the parsed value as it is, whatever its fields. *)
Theorem loadMetric_outcome env d slug :
  Plain.loadMetric slug env d = Site.loadMetric slug env d /\
  outcome (Site.loadMetric slug env d) =
  match network env ("data/v1/" +:+ slug +:+ ".json") NoStore with
  | FetchPending => Pending
  | FetchReject => Throw (TypeError "Failed to fetch")
  | FetchResponse res =>
      if ok res then
        match body res with
        | BodyPending => Pending
        | BodyInvalid => Throw (SyntaxError "Unexpected token in JSON")
        | BodyJson v => Ret v
        end
      else Throw (Error ("Failed to load " +:+ slug))
  end.
Proof. split; [reflexivity | by rewrite loadMetric_run]. Qed.

End Loader.

(** C2 fails as worded: served the body [{}] with status 200, the load
    returns the empty object, which has none of the required fields. *)
Lemma loadMetric_returns_malformed :
  outcome (Site.loadMetric "m1" (env_serving (VObj [])) sample_page) = Ret (VObj []) /\
  outcome (Plain.loadMetric "m1" (env_serving (VObj [])) sample_page) = Ret (VObj []) /\
  Doc.has_required_fields (VObj []) = false /\
  ~ rejects_malformed_body Site.loadMetric (env_serving (VObj [])) sample_page "m1".
Proof.
  repeat split; try reflexivity.
  intros H.
  destruct (H {| status := 200; body := BodyJson (VObj []) |} (VObj []))
    as [e He]; try reflexivity.
  discriminate He.
Qed.

(** ** The metadata formatters *)

Section Formatter.
Context `{host : Host}.

(** *** The formatters in closed form *)

Lemma setMetaAndDownloads_run slug cid payload env d :
  Site.setMetaAndDownloads slug cid payload env d =
  assign (element_ref d cid) (fragment_of (Site.meta_html slug) payload) d.
Proof.
  unfold Site.setMetaAndDownloads, fragment_of, assign, element_ref.
  rewrite bind_getElementById.
  rewrite bind_field. destruct (get_field payload "source") as [e|source]; [done|].
  rewrite bind_field. destruct (get_field payload "notes") as [e|notes_v]; [done|].
  rewrite bind_map_li_join.
  destruct (js_or notes_v (VArr [])) as [| | | | |items|]; try done.
  destruct (map_li items) as [e|lis]; [done|].
  rewrite bind_field.
  destruct (get_field (js_or source (VObj [])) "human_url") as [e|human_url]; [done|].
  rewrite bind_lift. destruct (srcLine human_url) as [e|src_line]; [done|].
  rewrite bind_field.
  destruct (get_field payload "last_updated_utc") as [e|v]; [done|].
  rewrite bind_lift. destruct (updated v) as [e|upd]; [done|].
  reflexivity.
Qed.

Lemma setMeta_run el payload env d :
  Plain.setMeta el payload env d = assign el (fragment_of Plain.meta_html payload) d.
Proof.
  unfold Plain.setMeta, fragment_of, assign.
  rewrite bind_field. destruct (get_field payload "source") as [e|source]; [done|].
  rewrite bind_field. destruct (get_field payload "notes") as [e|notes_v]; [done|].
  rewrite bind_map_li_join.
  destruct (js_or notes_v (VArr [])) as [| | | | |items|]; try done.
  destruct (map_li items) as [e|lis]; [done|].
  rewrite bind_field.
  destruct (get_field (js_or source (VObj [])) "human_url") as [e|human_url]; [done|].
  rewrite bind_lift. destruct (srcLine human_url) as [e|src_line]; [done|].
  rewrite bind_field.
  destruct (get_field payload "last_updated_utc") as [e|v]; [done|].
  rewrite bind_lift. destruct (updated v) as [e|upd]; [done|].
  reflexivity.
Qed.

(** *** What the formatters read from a document *)

Lemma payload_source d :
  get_field (Doc.payload_of d) "source" =
  inr (from_option Doc.source_value VUndef (Doc.source d)).
Proof.
  unfold Doc.payload_of. destruct (Doc.unit d), (Doc.source d), (Doc.notes d); reflexivity.
Qed.

Lemma payload_notes d :
  get_field (Doc.payload_of d) "notes" =
  inr (from_option (fun ns => VArr (map VStr ns)) VUndef (Doc.notes d)).
Proof.
  unfold Doc.payload_of. destruct (Doc.unit d), (Doc.source d), (Doc.notes d); reflexivity.
Qed.

Lemma payload_last_updated d :
  get_field (Doc.payload_of d) "last_updated_utc" = inr (VStr (Doc.last_updated_utc d)).
Proof.
  unfold Doc.payload_of. destruct (Doc.unit d), (Doc.source d), (Doc.notes d); reflexivity.
Qed.

Lemma payload_notes_or d :
  js_or (from_option (fun ns => VArr (map VStr ns)) VUndef (Doc.notes d)) (VArr [])
  = VArr (VStr <$> Doc.notes_of d).
Proof. unfold Doc.notes_of. by destruct (Doc.notes d). Qed.

Lemma payload_human_url d :
  get_field (js_or (from_option Doc.source_value VUndef (Doc.source d)) (VObj [])) "human_url"
  = inr (human_url_value d).
Proof.
  unfold human_url_value, Doc.human_url_of.
  destruct (Doc.source d) as [[[u|]]|]; reflexivity.
Qed.

Lemma map_li_strings (ns : list string) :
  map_li (VStr <$> ns) = inr (map li_of ns).
Proof.
  induction ns as [|n ns IH]; [done|].
  cbn [fmap list_fmap map_li li ToString]. by rewrite IH.
Qed.

Lemma srcLine_document d : srcLine (human_url_value d) = inr (source_line d).
Proof.
  unfold srcLine, source_line, human_url_value.
  destruct (Doc.human_url_of d) as [u|]; cbn; [|done].
  by destruct (negb (String.eqb u "")).
Qed.

Lemma Site_describes_document slug cid d env dom :
  is_Some (dom !! cid) ->
  Site.setMetaAndDownloads slug cid (Doc.payload_of d) env dom =
  {| dom_after := set_children cid (Markup (site_fragment slug d)) dom;
     events := [ESetInnerHTML cid (site_fragment slug d)];
     outcome := Ret tt |}.
Proof.
  intros [el Hel]. unfold Site.setMetaAndDownloads.
  rewrite bind_getElementById, Hel.
  rewrite bind_field, payload_source.
  rewrite bind_field, payload_notes, payload_notes_or.
  rewrite bind_map_li_join, map_li_strings.
  rewrite bind_field, payload_human_url.
  rewrite bind_lift, srcLine_document.
  rewrite bind_field, payload_last_updated.
  reflexivity.
Qed.

Lemma Plain_describes_document cid d env dom :
  Plain.setMeta (Some cid) (Doc.payload_of d) env dom =
  {| dom_after := set_children cid (Markup (plain_fragment d)) dom;
     events := [ESetInnerHTML cid (plain_fragment d)];
     outcome := Ret tt |}.
Proof.
  unfold Plain.setMeta.
  rewrite bind_field, payload_source.
  rewrite bind_field, payload_notes, payload_notes_or.
  rewrite bind_map_li_join, map_li_strings.
  rewrite bind_field, payload_human_url.
  rewrite bind_lift, srcLine_document.
  rewrite bind_field, payload_last_updated.
  reflexivity.
Qed.


(** *** Reading the list markup back *)

Lemma string_app_cons x (a b : string) : String x a +:+ b = String x (a +:+ b).
Proof. reflexivity. Qed.

Lemma string_app_assoc (a b c : string) : (a +:+ b) +:+ c = a +:+ (b +:+ c).
Proof.
  induction a as [|x a IH]; [done|].
  by rewrite !string_app_cons, IH.
Qed.

Lemma string_app_nil_r (a : string) : a +:+ "" = a.
Proof.
  induction a as [|x a IH]; [done|].
  by rewrite string_app_cons, IH.
Qed.








(** *** Documents *)

Lemma fragment_of_document template d :
  fragment_of template (Doc.payload_of d)
  = inr (template (source_line d) (updated_text d) (note_items d)).
Proof.
  unfold fragment_of.
  rewrite payload_source, payload_notes, payload_notes_or, map_li_strings,
    payload_human_url, srcLine_document, payload_last_updated.
  reflexivity.
Qed.


(** *** The source line *)

Lemma until_dq_app u rest :
  occurs "034"%char u = false ->
  until_dq (u +:+ String "034"%char rest) = Some u.
Proof.
  induction u as [|c u IH]; intros Hu; [done|].
  cbn [occurs] in Hu. apply orb_false_iff in Hu as [Hc Hu].
  rewrite string_app_cons. cbn [until_dq]. rewrite Hc, IH by done. done.
Qed.

Lemma strip_prefix_app p s : strip_prefix p (p +:+ s) = Some s.
Proof.
  induction p as [|c p IH]; [done|].
  rewrite string_app_cons. cbn [strip_prefix]. by rewrite Ascii.eqb_refl.
Qed.

Lemma source_link_split u :
  source_link u =
  ("<a href=" +:+ dq) +:+ u +:+
    String "034"%char
      (" target=" +:+ q "_blank" +:+ " rel=" +:+ q "noopener" +:+ ">Source</a>").
Proof.
  unfold source_link. unfold q at 1. rewrite !string_app_assoc. reflexivity.
Qed.

Lemma attribute_text_cases u :
  attribute_text u = true ->
  occurs "034"%char u = false /\ occurs "&"%char u = false.
Proof.
  unfold attribute_text. intros H. apply andb_true_iff in H as [Hq Ha].
  by apply negb_true_iff in Hq, Ha.
Qed.

Lemma href_of_anchor u rest :
  attribute_text u = true ->
  href_of (("<a href=" +:+ dq) +:+ u +:+ String "034"%char rest) = Some u.
Proof.
  intros Hu. apply attribute_text_cases in Hu as [Hq Ha]. unfold href_of.
  rewrite strip_prefix_app. cbn [mbind option_bind].
  rewrite until_dq_app by done. cbn [mbind option_bind]. by rewrite Ha.
Qed.

Lemma href_of_source_link u :
  attribute_text u = true -> href_of (source_link u) = Some u.
Proof.
  intros Hu. rewrite source_link_split. by apply href_of_anchor.
Qed.

Lemma source_link_not_fallback u : source_link u <> source_fallback.
Proof. rewrite source_link_split. discriminate. Qed.

Lemma source_line_cases d :
  match linked_url d with
  | Some u => source_line d = source_link u
  | None => source_line d = source_fallback
  end.
Proof.
  unfold linked_url, source_line, human_url_value.
  destruct (Doc.human_url_of d) as [u|]; [|done].
  cbn [mbind option_bind from_option truthy default].
  by destruct (String.eqb u "").
Qed.

(** C9: for a document whose source URL stands for itself inside a
    double-quoted attribute (it holds neither a double quote nor an
    ampersand: the URL is written unescaped), the fragment either
    formatter writes opens with the source line; when the URL is present
    and not the empty string the source line is the anchor whose [href]
    reads back as exactly that URL, and it is not the fallback label;
    when the URL is absent or empty the source line is the fallback label
    [Source: federal API] and holds no anchor.  So the fragment has the
    one or the other, never both. *)
Theorem source_line_links slug cid d env dom :
  is_Some (dom !! cid) ->
  attribute_safe d = true ->
  events (Site.setMetaAndDownloads slug cid (Doc.payload_of d) env dom)
    = [ESetInnerHTML cid (site_fragment slug d)] /\
  events (Plain.setMeta (Some cid) (Doc.payload_of d) env dom)
    = [ESetInnerHTML cid (plain_fragment d)] /\
  (exists tail, site_fragment slug d = nl +:+ "    <div>" +:+ source_line d +:+ tail) /\
  (exists tail, plain_fragment d = nl +:+ "    <div>" +:+ source_line d +:+ tail) /\
  match linked_url d with
  | Some u =>
      source_line d = source_link u /\
      href_of (source_line d) = Some u /\
      source_line d <> source_fallback
  | None =>
      source_line d = source_fallback /\
      href_of (source_line d) = None
  end.
Proof.
  intros Hel Hsafe.
  split.
  { rewrite Site_describes_document by done. reflexivity. }
  split.
  { rewrite Plain_describes_document. reflexivity. }
  split.
  { unfold site_fragment, Site.meta_html. eexists. reflexivity. }
  split.
  { unfold plain_fragment, Plain.meta_html. eexists. reflexivity. }
  pose proof (source_line_cases d) as Hline.
  unfold attribute_safe, linked_url in *.
  destruct (Doc.human_url_of d) as [u|]; cbn [mbind option_bind from_option] in *.
  - destruct (String.eqb u "").
    + by rewrite Hline.
    + rewrite Hline. split; [done|]. split.
      * by apply href_of_source_link.
      * apply source_link_not_fallback.
  - by rewrite Hline.
Qed.

(** *** Payloads in general *)

Lemma get_field_or_object v k :
  exists x, get_field (js_or v (VObj [])) k = inr x /\
            (truthy v = false -> x = VUndef).
Proof.
  unfold js_or. destruct (truthy v) eqn:Hv.
  - destruct v; try discriminate Hv; cbn; eexists; (split; [reflexivity | discriminate]).
  - cbn. eauto.
Qed.

Lemma listable_items v :
  listable v = true ->
  exists items, js_or v (VArr []) = VArr items /\ (truthy v = false -> items = []).
Proof.
  unfold listable, js_or. intros Hv. destruct (truthy v) eqn:Ht.
  - destruct v; try discriminate Hv. eexists; (split; [reflexivity | discriminate]).
  - eauto.
Qed.

Lemma fragment_of_inr template payload html :
  fragment_of template payload = inr html ->
  exists src upd items, html = template src upd items.
Proof.
  unfold fragment_of. intros H.
  repeat match type of H with
         | match ?x with _ => _ end = _ => destruct x; try discriminate H
         end.
  injection H as <-. eauto.
Qed.

(** *** Conversions *)

(** Induction on a value and the items of its arrays. *)
Lemma value_items_ind (P : value -> Prop) :
  P VUndef -> P VNull -> (forall b, P (VBool b)) -> (forall n, P (VNum n)) ->
  (forall s, P (VStr s)) ->
  (forall items, Forall P items -> P (VArr items)) ->
  (forall ms, P (VObj ms)) ->
  forall v, P v.
Proof.
  intros Hu Hn Hb Hnum Hs Harr Hobj.
  exact (fix IH (v : value) : P v :=
           match v with
           | VUndef => Hu
           | VNull => Hn
           | VBool b => Hb b
           | VNum n => Hnum n
           | VStr s => Hs s
           | VArr items =>
               Harr items
                 ((fix go (l : list value) : Forall P l :=
                     match l with
                     | [] => @List.Forall_nil _ P
                     | x :: r => @List.Forall_cons _ P x r (IH x) (go r)
                     end) items)
           | VObj ms => Hobj ms
           end).
Qed.

Lemma ToString_printable v : printable v = true -> exists s, ToString v = inr s.
Proof.
  induction v as [| |[]|n|s|items IH|ms] using value_items_ind; intros Hp;
    try (by eexists).
  - cbn [printable] in Hp. cbn [ToString].
    induction IH as [|x r IHx _ IHr]; [by eexists|].
    cbn [forallb] in Hp. apply andb_true_iff in Hp as [Hx Hr].
    destruct (IHr Hr) as [sr Hsr].
    assert (Hx' : exists sx, match x with
                             | VUndef | VNull => inr ""
                             | _ => ToString x
                             end = inr sx).
    { destruct (IHx Hx) as [sx Hsx]. destruct x; eauto. }
    destruct Hx' as [sx Hsx]. rewrite Hsx.
    destruct r; [by eexists|]. rewrite Hsr. by eexists.
  - cbn [printable] in Hp. cbn [ToString].
    destruct (has_own "toString" ms); [discriminate Hp|by eexists].
Qed.

Lemma map_li_printable items :
  forallb printable items = true -> exists xs, map_li items = inr xs.
Proof.
  induction items as [|n items IH]; [by eexists|].
  cbn [forallb]. intros H. apply andb_true_iff in H as [Hn Hitems].
  destruct (ToString_printable n Hn) as [x Hx], (IH Hitems) as [xs Hxs].
  cbn [map_li]. unfold li. rewrite Hx, Hxs. by eexists.
Qed.

Lemma srcLine_printable u :
  printable u = true ->
  exists s, srcLine u = inr s /\ (truthy u = false -> s = source_fallback).
Proof.
  intros Hu. unfold srcLine. destruct (truthy u); [|by eexists].
  destruct (ToString_printable u Hu) as [x ->]. by eexists.
Qed.

Lemma updated_printable v : printable v = true -> exists s, updated v = inr s.
Proof.
  intros Hv. unfold updated, new_Date.
  destruct v; try (by eexists);
    destruct (ToString_printable _ Hv) as [x ->]; by eexists.
Qed.

(** A payload object whose notes can be listed and whose fields can be
    converted has a fragment, whatever the template. *)
Lemma fragment_of_renderable ms :
  listable (member "notes" ms) = true ->
  printable_fields ms = true ->
  exists src upd items,
    (forall template, fragment_of template (VObj ms) = inr (template src upd items)) /\
    (member "source" ms = VUndef -> src = source_fallback) /\
    (member "notes" ms = VUndef -> items = "") /\
    updated (member "last_updated_utc" ms) = inr upd.
Proof.
  intros Hnotes Hp. unfold printable_fields, source_url in Hp.
  apply andb_true_iff in Hp as [Hp Hdate]. apply andb_true_iff in Hp as [Hitems Hurl].
  destruct (listable_items _ Hnotes) as (items & Hor & Hnone).
  destruct (get_field_or_object (member "source" ms) "human_url") as (url & Hget & Hsrc).
  rewrite Hget in Hurl.
  assert (Hlis : exists xs, map_li items = inr xs /\
                   (member "notes" ms = VUndef -> xs = [])).
  { unfold js_or in Hor. destruct (truthy (member "notes" ms)) eqn:Ht.
    - rewrite Hor in Hitems. cbn [printable] in Hitems.
      destruct (map_li_printable items Hitems) as [xs Hxs]. exists xs.
      split; [done|]. intros Hu. rewrite Hu in Ht. discriminate Ht.
    - injection Hor as <-. by exists []. }
  destruct Hlis as (xs & Hxs & Hempty).
  destruct (srcLine_printable url Hurl) as (src & Hline & Hfall).
  destruct (updated_printable _ Hdate) as (upd & Hupd).
  exists src, upd, (join xs). split; [|split; [|split]].
  - intros template. unfold fragment_of. cbn [get_field].
    by rewrite Hor, Hxs, Hget, Hline, Hupd.
  - intros Hu. apply Hfall. rewrite Hsrc; [done|]. by rewrite Hu.
  - intros Hu. by rewrite Hempty.
  - done.
Qed.

(** C10: for a payload object whose [notes] can be listed (absent or
    otherwise falsy, or an array) and whose notes, source URL and
    timestamp can be converted (none is, or holds, an object with a
    [toString] member of its own), written to a container that exists,
    neither formatter throws: each returns after assigning a fragment
    made of a source line, an update text and the note items.  An absent
    [source] gives the fallback label, absent [notes] give an empty notes
    part, and a [last_updated_utc] that is absent, or a string the
    runtime cannot parse as a date, gives the text [Invalid Date]. *)
Theorem formatter_degrades slug cid ms env dom :
  is_Some (dom !! cid) ->
  listable (member "notes" ms) = true ->
  printable_fields ms = true ->
  exists src upd items,
    Site.setMetaAndDownloads slug cid (VObj ms) env dom =
      {| dom_after := set_children cid (Markup (Site.meta_html slug src upd items)) dom;
         events := [ESetInnerHTML cid (Site.meta_html slug src upd items)];
         outcome := Ret tt |} /\
    Plain.setMeta (Some cid) (VObj ms) env dom =
      {| dom_after := set_children cid (Markup (Plain.meta_html src upd items)) dom;
         events := [ESetInnerHTML cid (Plain.meta_html src upd items)];
         outcome := Ret tt |} /\
    match member "source" ms with
    | VUndef => src = source_fallback
    | _ => True
    end /\
    match member "notes" ms with
    | VUndef => notes_block items = ""
    | _ => True
    end /\
    match member "last_updated_utc" ms with
    | VUndef => upd = "Invalid Date"
    | VStr s =>
        match Date_parse s with
        | None => upd = "Invalid Date"
        | Some t => upd = time_toLocaleString t
        end
    | _ => True
    end.
Proof.
  intros [el Hel] Hnotes Hp.
  destruct (fragment_of_renderable ms Hnotes Hp)
    as (src & upd & items & Hfrag & Hsrc & Hnone & Hupd).
  exists src, upd, items.
  split.
  { rewrite setMetaAndDownloads_run, Hfrag. unfold assign, element_ref. by rewrite Hel. }
  split.
  { by rewrite setMeta_run, Hfrag. }
  split.
  { destruct (member "source" ms); try exact I. by apply Hsrc. }
  split.
  { destruct (member "notes" ms); try exact I. by rewrite Hnone. }
  destruct (member "last_updated_utc" ms) as [| | | |s| |]; try exact I;
    cbn in Hupd; injection Hupd as <-; [done|].
  by destruct (Date_parse s).
Qed.

(** *** The download links *)









End Formatter.



(** The source line of the sample document links to its URL. *)
Lemma source_line_links_witness :
  is_Some (sample_page !! "meta-broadband") /\
  attribute_safe sample_doc = true /\
  href_of (source_line sample_doc) = Some "https://data.census.gov/".
Proof.
  assert (H1 : is_Some (sample_page !! "meta-broadband")) by (by eexists).
  assert (H2 : attribute_safe sample_doc = true) by reflexivity.
  split; [exact H1|]. split; [exact H2|].
  exact (proj1 (proj2 (proj2 (proj2 (proj2 (proj2
    (source_line_links "broadband_adoption_households_share" "meta-broadband"
       sample_doc sample_env sample_page H1 H2))))))).
Defined.

(** C9 fails as worded: a source URL that is present but is the empty
    string gives the fallback label, not a hyperlink. *)
Lemma empty_url_is_not_linked :
  Doc.human_url_of empty_url_doc = Some "" /\
  events (Site.setMetaAndDownloads "broadband_adoption_households_share" "meta-broadband"
            (Doc.payload_of empty_url_doc) sample_env sample_page)
    = [ESetInnerHTML "meta-broadband"
         (site_fragment "broadband_adoption_households_share" empty_url_doc)] /\
  source_line empty_url_doc = "Source: federal API" /\
  href_of (source_line empty_url_doc) = None /\
  ~ links_to_source_url empty_url_doc.
Proof.
  repeat split; try (vm_compute; reflexivity).
  intros H. specialize (H "" eq_refl). vm_compute in H. discriminate H.
Qed.

(** A payload without [source], [notes] and [last_updated_utc] is
    formatted with the fallback label, no list and [Invalid Date]. *)
Lemma formatter_degrades_witness :
  is_Some (sample_page !! "meta-broadband") /\
  listable (member "notes" [("title", VStr "T")]) = true /\
  printable_fields [("title", VStr "T")] = true /\
  exists src upd items,
    Site.setMetaAndDownloads "m1" "meta-broadband" (VObj [("title", VStr "T")])
      sample_env sample_page =
      {| dom_after :=
           set_children "meta-broadband"
             (Markup (Site.meta_html "m1" src upd items)) sample_page;
         events := [ESetInnerHTML "meta-broadband" (Site.meta_html "m1" src upd items)];
         outcome := Ret tt |} /\
    src = source_fallback /\ notes_block items = "" /\ upd = "Invalid Date".
Proof.
  assert (H1 : is_Some (sample_page !! "meta-broadband")) by (by eexists).
  assert (H2 : listable (member "notes" [("title", VStr "T")]) = true) by reflexivity.
  assert (H3 : printable_fields [("title", VStr "T")] = true) by reflexivity.
  split; [exact H1|]. split; [exact H2|]. split; [exact H3|].
  destruct (formatter_degrades "m1" "meta-broadband" [("title", VStr "T")]
              sample_env sample_page H1 H2 H3)
    as (src & upd & items & Hsite & _ & Hsrc & Hnotes & Hupd).
  exists src, upd, items. cbn in Hsrc, Hnotes, Hupd. by repeat split.
Defined.


(** A note that is an object with a [toString] member of its own cannot
    be converted: both formatters throw. *)
Lemma toString_member_throws :
  outcome (Site.setMetaAndDownloads "m1" "meta-broadband"
             (VObj [("notes", VArr [VObj [("toString", VNum "1")]])])
             sample_env sample_page)
    = Throw (TypeError "Cannot convert object to primitive value") /\
  outcome (Plain.setMeta (Some "meta-broadband")
             (VObj [("notes", VArr [VObj [("toString", VNum "1")]])])
             sample_env sample_page)
    = Throw (TypeError "Cannot convert object to primitive value") /\
  outcome (Site.setMetaAndDownloads "m1" "meta-broadband"
             (VObj [("last_updated_utc", VObj [("toString", VNum "1")])])
             sample_env sample_page)
    = Throw (TypeError "Cannot convert object to primitive value") /\
  outcome (Site.setMetaAndDownloads "m1" "meta-broadband"
             (VObj [("source", VObj [("human_url", VObj [("toString", VNum "1")])])])
             sample_env sample_page)
    = Throw (TypeError "Cannot convert object to primitive value").
Proof. repeat split; vm_compute; reflexivity. Qed.

(** C10 fails as worded: a payload object whose [notes] is a string makes
    both formatters throw. *)
Lemma string_notes_throw :
  outcome (Site.setMetaAndDownloads "m1" "meta-broadband" string_notes_payload
             sample_env sample_page)
    = Throw (TypeError "(payload.notes || []).map is not a function") /\
  outcome (Plain.setMeta (Some "meta-broadband") string_notes_payload
             sample_env sample_page)
    = Throw (TypeError "(payload.notes || []).map is not a function") /\
  ~ never_throws (Site.setMetaAndDownloads "m1" "meta-broadband" string_notes_payload
                    sample_env sample_page) /\
  ~ never_throws (Plain.setMeta (Some "meta-broadband") string_notes_payload
                    sample_env sample_page).
Proof.
  repeat split; try (vm_compute; reflexivity).
  - intros H. by apply (H (TypeError "(payload.notes || []).map is not a function")).
  - intros H. by apply (H (TypeError "(payload.notes || []).map is not a function")).
Qed.

(** ** The charts *)

Section ChartProofs.
Context `{host : Host}.

Lemma payload_years d : get_field (Doc.payload_of d) "years" = inr (years_value d).
Proof.
  unfold Doc.payload_of. destruct (Doc.unit d), (Doc.source d), (Doc.notes d); reflexivity.
Qed.

Lemma payload_hawaii d :
  get_field (Doc.payload_of d) "hawaii" = inr (Doc.series (Doc.hawaii d)).
Proof.
  unfold Doc.payload_of. destruct (Doc.unit d), (Doc.source d), (Doc.notes d); reflexivity.
Qed.

Lemma payload_other d :
  get_field (Doc.payload_of d) "other_states_avg"
  = inr (Doc.series (Doc.other_states_avg d)).
Proof.
  unfold Doc.payload_of. destruct (Doc.unit d), (Doc.source d), (Doc.notes d); reflexivity.
Qed.

Lemma payload_title d : get_field (Doc.payload_of d) "title" = inr (VStr (Doc.title d)).
Proof.
  unfold Doc.payload_of. destruct (Doc.unit d), (Doc.source d), (Doc.notes d); reflexivity.
Qed.

Lemma payload_unit d : get_field (Doc.payload_of d) "unit" = inr (unit_value d).
Proof.
  unfold Doc.payload_of, unit_value.
  destruct (Doc.unit d), (Doc.source d), (Doc.notes d); reflexivity.
Qed.

(** On a document, the statements after the load render it and then
    describe it. *)
Lemma Site_after_load_document theme slug chartId metaId d :
  Site.after_load theme slug chartId metaId (Doc.payload_of d) =
  (let* canvas := getElementById chartId in
   let* ctx := getContext2d canvas in
   do site_render theme ctx d then
   Site.setMetaAndDownloads slug metaId (Doc.payload_of d))%js.
Proof.
  unfold Site.after_load, site_render, field.
  rewrite payload_years, payload_hawaii, payload_other, payload_title, payload_unit.
  reflexivity.
Qed.

Lemma Plain_after_load_document chartId metaId d :
  Plain.after_load chartId metaId (Doc.payload_of d) =
  (let* canvas := getElementById chartId in
   let* ctx := getContext2d canvas in
   do plain_render ctx d then
   let* el := getElementById metaId in
   Plain.setMeta el (Doc.payload_of d))%js.
Proof.
  unfold Plain.after_load, plain_render, field.
  rewrite payload_years, payload_hawaii, payload_other, payload_title, payload_unit.
  reflexivity.
Qed.

Lemma point_count_series xs : point_count (Doc.series xs) = Some (length xs).
Proof. unfold Doc.series, point_count. by rewrite length_map. Qed.

(** C4, as the code has it: for a document whose three sequences have
    the same length, given a charting library that accepts the
    configuration, [makeLineChart] returns in both scripts, having handed
    the library a configuration with exactly two series, labelled
    [Hawaiʻi] and [Other U.S. States (avg)], each with as many points as
    there are years.  In src/site/assets/main.js the average series has
    the dash pattern [6, 4] and the region series none, and each has its
    theme colour; in src/unnamed/part_000 neither series has a dash
    pattern or a colour. *)
Theorem two_series_per_chart theme ctx d env dom :
  length (Doc.hawaii d) = length (Doc.years d) ->
  length (Doc.other_states_avg d) = length (Doc.years d) ->
  (forall cfg, Chart_constructor env ctx cfg = None) ->
  (exists chart region average,
     site_render theme ctx d env dom =
       {| dom_after := dom;
          events := [ENewChart ctx (chart_config chart)];
          outcome := Ret chart |} /\
     datasets (chart_data (chart_config chart)) = [region; average] /\
     label region = "Hawaiʻi" /\
     label average = "Other U.S. States (avg)" /\
     point_count (labels (chart_data (chart_config chart))) = Some (length (Doc.years d)) /\
     point_count (data region) = Some (length (Doc.years d)) /\
     point_count (data average) = Some (length (Doc.years d)) /\
     borderDash region = None /\
     borderDash average = Some [6; 4] /\
     borderColor region = Some (Site.HI theme) /\
     borderColor average = Some (Site.OTHER theme)) /\
  (exists chart region average,
     plain_render ctx d env dom =
       {| dom_after := dom;
          events := [ENewChart ctx (chart_config chart)];
          outcome := Ret chart |} /\
     datasets (chart_data (chart_config chart)) = [region; average] /\
     label region = "Hawaiʻi" /\
     label average = "Other U.S. States (avg)" /\
     point_count (labels (chart_data (chart_config chart))) = Some (length (Doc.years d)) /\
     point_count (data region) = Some (length (Doc.years d)) /\
     point_count (data average) = Some (length (Doc.years d)) /\
     borderDash region = None /\
     borderDash average = None /\
     borderColor region = None /\
     borderColor average = None).
Proof.
  intros Hh Ho Hlib. split.
  - unfold site_render, Site.makeLineChart, new_Chart. rewrite Hlib.
    eexists {| chart_ctx := ctx; chart_config := _ |}, _, _.
    split; [reflexivity|]. split; [reflexivity|].
    cbn [chart_config Site.line_chart_config chart_data labels data label
         borderDash borderColor].
    rewrite !point_count_series, Hh, Ho.
    unfold years_value, point_count. rewrite length_map. by repeat split.
  - unfold plain_render, Plain.makeLineChart, new_Chart. rewrite Hlib.
    eexists {| chart_ctx := ctx; chart_config := _ |}, _, _.
    split; [reflexivity|]. split; [reflexivity|].
    cbn [chart_config Plain.line_chart_config chart_data labels data label
         borderDash borderColor].
    rewrite !point_count_series, Hh, Ho.
    unfold years_value, point_count. rewrite length_map. by repeat split.
Qed.



End ChartProofs.

(** The chart of the sample document has two series of two points. *)
Lemma two_series_per_chart_witness :
  length (Doc.hawaii sample_doc) = length (Doc.years sample_doc) /\
  length (Doc.other_states_avg sample_doc) = length (Doc.years sample_doc) /\
  (forall cfg, Chart_constructor sample_env (Some (Ctx2d "chart-broadband")) cfg = None) /\
  exists chart region average,
    outcome (site_render sample_theme (Some (Ctx2d "chart-broadband")) sample_doc
               sample_env sample_page) = Ret chart /\
    datasets (chart_data (chart_config chart)) = [region; average] /\
    point_count (data region) = Some 2%nat /\
    point_count (data average) = Some 2%nat /\
    data region = VArr [VNum "1.0"; VNull] /\
    borderDash average = Some [6; 4].
Proof.
  assert (H1 : length (Doc.hawaii sample_doc) = length (Doc.years sample_doc))
    by reflexivity.
  assert (H2 : length (Doc.other_states_avg sample_doc) = length (Doc.years sample_doc))
    by reflexivity.
  assert (H3 : forall cfg,
             Chart_constructor sample_env (Some (Ctx2d "chart-broadband")) cfg = None)
    by reflexivity.
  split; [exact H1|]. split; [exact H2|]. split; [exact H3|].
  destruct (two_series_per_chart sample_theme (Some (Ctx2d "chart-broadband"))
              sample_doc sample_env sample_page H1 H2 H3)
    as [(chart & region & average & Hrun & Hds & _ & _ & _ & Hr & Ha & _ & Hdash & _) _].
  exists chart, region, average.
  rewrite Hrun. cbn [outcome]. repeat split; try done.
  unfold site_render, Site.makeLineChart, new_Chart in Hrun.
  cbn [Chart_constructor sample_env] in Hrun.
  injection Hrun as _ <-.
  cbn [chart_config Site.line_chart_config chart_data datasets] in Hds.
  injection Hds as <- <-. reflexivity.
Defined.

(** C4 fails as worded on src/unnamed/part_000: the chart it builds for
    the sample document has no dashed series. *)
Lemma plain_average_is_not_dashed :
  outcome (plain_render (Some (Ctx2d "chart-broadband")) sample_doc
             sample_env sample_page)
    = Ret {| chart_ctx := Some (Ctx2d "chart-broadband");
             chart_config :=
               Plain.line_chart_config (years_value sample_doc)
                 (Doc.series (Doc.hawaii sample_doc))
                 (Doc.series (Doc.other_states_avg sample_doc))
                 (VStr (Doc.title sample_doc)) (unit_value sample_doc) |} /\
  map borderDash
    (datasets (chart_data
       (Plain.line_chart_config (years_value sample_doc)
          (Doc.series (Doc.hawaii sample_doc))
          (Doc.series (Doc.other_states_avg sample_doc))
          (VStr (Doc.title sample_doc)) (unit_value sample_doc))))
    = [None; None] /\
  ~ average_is_dashed
      (Plain.line_chart_config (years_value sample_doc)
         (Doc.series (Doc.hawaii sample_doc))
         (Doc.series (Doc.other_states_avg sample_doc))
         (VStr (Doc.title sample_doc)) (unit_value sample_doc)).
Proof.
  split; [reflexivity|]. split; [reflexivity|].
  intros (region & average & Hds & _ & [dash Hdash]).
  cbn in Hds. injection Hds as <- <-. discriminate Hdash.
Qed.

(** ** The orchestrator *)

Section Blocks.
Context `{host : Host}.

(** *** The blocks of the scripts are the plans *)

Lemma Site_after_load_run theme slug c m payload env d :
  Site.after_load theme slug c m payload env d =
  render_then_describe (Site.line_chart_config theme) (Site.meta_html slug) c m
    payload env d.
Proof.
  unfold Site.after_load, render_then_describe, context_for, config_for.
  rewrite bind_getElementById, bind_getContext2d.
  destruct (d !! c) as [el|] eqn:Hc; [|done].
  cbn beta iota. rewrite Hc. cbn [fmap option_fmap option_map].
  destruct (kind el) as [[]|]; try done.
  all: rewrite bind_field; destruct (get_field payload "years"); [done|].
  all: rewrite bind_field; destruct (get_field payload "hawaii"); [done|].
  all: rewrite bind_field; destruct (get_field payload "other_states_avg"); [done|].
  all: rewrite bind_field; destruct (get_field payload "title"); [done|].
  all: rewrite bind_field; destruct (get_field payload "unit"); [done|].
  all: unfold Site.makeLineChart; rewrite bind_new_Chart.
  all: destruct (Chart_constructor env _ _); [done|].
  all: by rewrite setMetaAndDownloads_run.
Qed.

Lemma Plain_after_load_run c m payload env d :
  Plain.after_load c m payload env d =
  render_then_describe Plain.line_chart_config Plain.meta_html c m payload env d.
Proof.
  unfold Plain.after_load, render_then_describe, context_for, config_for.
  rewrite bind_getElementById, bind_getContext2d.
  destruct (d !! c) as [el|] eqn:Hc; [|done].
  cbn beta iota. rewrite Hc. cbn [fmap option_fmap option_map].
  destruct (kind el) as [[]|]; try done.
  all: rewrite bind_field; destruct (get_field payload "years"); [done|].
  all: rewrite bind_field; destruct (get_field payload "hawaii"); [done|].
  all: rewrite bind_field; destruct (get_field payload "other_states_avg"); [done|].
  all: rewrite bind_field; destruct (get_field payload "title"); [done|].
  all: rewrite bind_field; destruct (get_field payload "unit"); [done|].
  all: unfold Plain.makeLineChart; rewrite bind_new_Chart.
  all: destruct (Chart_constructor env _ _); [done|].
  all: by rewrite bind_getElementById, setMeta_run.
Qed.

Lemma load_then_run (after : value -> M unit) slug env d :
  bind (Site.loadMetric slug) after env d = load_then after slug env d.
Proof.
  rewrite bind_run, loadMetric_run. unfold load_then, thrown.
  cbn [outcome events dom_after].
  destruct (network env (metric_url slug) NoStore) as [| |res]; try done.
  destruct (ok res); [|done]. by destruct (body res).
Qed.

Lemma Site_try_block_run theme slug c m env d :
  Site.try_block theme slug c m env d =
  load_then (render_then_describe (Site.line_chart_config theme) (Site.meta_html slug) c m)
    slug env d.
Proof.
  unfold Site.try_block. rewrite load_then_run. unfold load_then.
  destruct (network env _ NoStore) as [| |res]; try done.
  destruct (ok res); [|done]. destruct (body res); try done.
  by rewrite Site_after_load_run.
Qed.

Lemma Plain_try_block_run slug c m env d :
  Plain.try_block slug c m env d =
  load_then (render_then_describe Plain.line_chart_config Plain.meta_html c m) slug env d.
Proof.
  unfold Plain.try_block.
  change Plain.loadMetric with Site.loadMetric.
  rewrite load_then_run. unfold load_then.
  destruct (network env _ NoStore) as [| |res]; try done.
  destruct (ok res); [|done]. destruct (body res); try done.
  by rewrite Plain_after_load_run.
Qed.

Lemma Site_catch_block_run m u e env d :
  Site.catch_block m u e env d = catch_plan true m u e env d.
Proof.
  unfold Site.catch_block, catch_plan, element_ref.
  rewrite bind_getElementById.
  destruct (d !! m); rewrite bind_run; reflexivity.
Qed.

Lemma Plain_catch_block_run m u e env d :
  Plain.catch_block m u e env d = catch_plan false m u e env d.
Proof.
  unfold Plain.catch_block, catch_plan, element_ref.
  rewrite bind_getElementById.
  destruct (d !! m); rewrite bind_run; reflexivity.
Qed.

Lemma try_catch_ext {A} (m m' : M A) (h h' : error -> M A) env d :
  m env d = m' env d ->
  (forall e d1, h e env d1 = h' e env d1) ->
  try_catch m h env d = try_catch m' h' env d.
Proof.
  intros Hm Hh. rewrite !try_catch_run, Hm.
  destruct (outcome (m' env d)); try done. by rewrite Hh.
Qed.

Lemma site_panel_run theme p env d :
  site_panel theme p env d =
  panel_plan true (Site.line_chart_config theme) (Site.meta_html (p_slug p)) p env d.
Proof.
  unfold site_panel, Site.panel, panel_plan. apply try_catch_ext.
  - apply Site_try_block_run.
  - intros. apply Site_catch_block_run.
Qed.

Lemma plain_panel_run p env d :
  plain_panel p env d = panel_plan false Plain.line_chart_config Plain.meta_html p env d.
Proof.
  unfold plain_panel, Plain.panel, panel_plan. apply try_catch_ext.
  - apply Plain_try_block_run.
  - intros. apply Plain_catch_block_run.
Qed.

End Blocks.

(** *** What a panel reads and writes *)

Section Plans.
Context `{host : Host}.
Variable guarded : bool.
Variable config : value -> value -> value -> value -> value -> ChartConfig.
Variable template : string -> string -> string -> string.

Lemma lookup_set_children_eq m c (d : gmap string element) :
  set_children m c d !! m = (fun e => {| kind := kind e; content := c |}) <$> d !! m.
Proof.
  unfold set_children. destruct (d !! m) eqn:Hd; [|by rewrite Hd].
  by rewrite lookup_insert_eq.
Qed.

Lemma lookup_set_children_ne m c (d : gmap string element) id :
  id <> m -> set_children m c d !! id = d !! id.
Proof.
  intros Hne. unfold set_children. destruct (d !! m); [|done].
  by rewrite lookup_insert_ne.
Qed.

Lemma element_ref_Some (d : gmap string element) m id :
  element_ref d m = Some id -> id = m /\ is_Some (d !! m).
Proof. unfold element_ref. destruct (d !! m); [|done]. intros [= <-]. eauto. Qed.

Lemma element_ref_None (d : gmap string element) m :
  element_ref d m = None -> d !! m = None.
Proof. unfold element_ref. by destruct (d !! m). Qed.

Lemma inner_new_chart ctx cfg : inner (ENewChart ctx cfg).
Proof. by split. Qed.

Lemma inner_set_text id text : inner (ESetTextContent id text).
Proof. by split. Qed.

(** The three ways a [try] block ends. *)
Lemma try_plan_cases c m slug env d :
  let t := load_then (render_then_describe config template c m) slug env d in
  (exists ctx cfg html,
     t = {| dom_after := set_children m (Markup html) d;
            events := [EFetch (metric_url slug) NoStore; ENewChart ctx cfg;
                       ESetInnerHTML m html];
            outcome := Ret tt |} /\
     is_Some (d !! m) /\ settles env slug = true)
  \/ (exists e t',
        t = thrown d (EFetch (metric_url slug) NoStore :: t') e /\
        Forall inner t' /\ Forall (fun ev => is_new_chart ev = true) t' /\
        settles env slug = true)
  \/ (t = {| dom_after := d; events := [EFetch (metric_url slug) NoStore];
             outcome := Pending |} /\
      settles env slug = false).
Proof.
  cbn zeta. unfold load_then, settles.
  destruct (network env (metric_url slug) NoStore) as [| |res].
  - right; right. done.
  - right; left. eexists _, []. by repeat split.
  - destruct (ok res); cbn [negb orb]; [|right; left; eexists _, []; by repeat split].
    destruct (body res) as [| |v].
    + right; right. done.
    + right; left. eexists _, []. by repeat split.
    + unfold render_then_describe.
      destruct (context_for c (d !! c)) as [e|ctx];
        [right; left; eexists _, []; by repeat split|].
      destruct (config_for config v) as [e|cfg];
        [right; left; eexists _, []; by repeat split|].
      destruct (Chart_constructor env ctx cfg) as [e|].
      { right; left. eexists _, [_]. split; [reflexivity|].
        repeat split; repeat constructor. }
      unfold assign.
      destruct (fragment_of template v) as [e|html].
      { right; left. eexists _, [_]. split; [reflexivity|].
        repeat split; repeat constructor. }
      destruct (element_ref d m) as [id|] eqn:Href.
      * apply element_ref_Some in Href as [-> Hm].
        left. eexists _, _, _. split; [reflexivity|]. done.
      * right; left. eexists _, [_]. split; [reflexivity|].
        repeat split; repeat constructor.
Qed.

(** The ways a whole panel ends, by how its [try] block ended. *)
Lemma panel_plan_cases p env d :
  let t := load_then (render_then_describe config template (p_chart p) (p_meta p))
             (p_slug p) env d in
  let r := panel_plan guarded config template p env d in
  (outcome t = Ret tt /\ r = t)
  \/ (exists e,
        outcome t = Throw e /\ is_Some (d !! p_meta p) /\
        r = {| dom_after := set_children (p_meta p) (TextNode (p_unavailable p)) d;
               events := events t ++ [ESetTextContent (p_meta p) (p_unavailable p);
                                      EConsoleError e];
               outcome := Ret tt |})
  \/ (exists e,
        outcome t = Throw e /\ d !! p_meta p = None /\
        r = if guarded
            then {| dom_after := d; events := events t ++ [EConsoleError e];
                    outcome := Ret tt |}
            else thrown d (events t)
                   (TypeError "Cannot set properties of null (setting 'textContent')"))
  \/ (outcome t = Pending /\ r = t).
Proof.
  cbn zeta. unfold panel_plan. rewrite try_catch_run.
  destruct (try_plan_cases (p_chart p) (p_meta p) (p_slug p) env d)
    as [(ctx & cfg & html & -> & _)|[(e & t' & -> & _)|[-> _]]];
    cbn [outcome events dom_after thrown].
  - by left.
  - unfold catch_plan.
    destruct (element_ref d (p_meta p)) as [id|] eqn:Href.
    + apply element_ref_Some in Href as [_ Hm].
      right; left. exists e. by repeat split.
    + apply element_ref_None in Href.
      right; right; left. exists e. repeat split; [done|].
      destruct guarded; unfold prepend, thrown; cbn; by rewrite ?app_nil_r.
  - by right; right; right.
Qed.

(** The events of a panel open with its load; it either runs to its
    end, whose last event closes it, or it does not end normally. *)
Lemma panel_plan_shape p env d :
  let r := panel_plan guarded config template p env d in
  (exists t last,
     events r = EFetch (metric_url (p_slug p)) NoStore :: t ++ [last] /\
     Forall inner t /\ closes_panel last = true /\ outcome r = Ret tt)
  \/ (exists t,
        events r = EFetch (metric_url (p_slug p)) NoStore :: t /\
        Forall inner t /\ outcome r <> Ret tt).
Proof.
  cbn zeta.
  destruct (panel_plan_cases p env d)
    as [[Ht ->]|[(e & Ht & _ & ->)|[(e & Ht & _ & ->)|[Ht ->]]]];
  destruct (try_plan_cases (p_chart p) (p_meta p) (p_slug p) env d)
    as [(ctx & cfg & html & Hd & _)|[(e1 & t1 & Hd & Hin & _)|[Hd _]]];
  rewrite Hd in *; cbn [outcome events dom_after thrown] in *;
    try discriminate Ht.
  - left. exists [ENewChart ctx cfg], (ESetInnerHTML (p_meta p) html).
    repeat split; try done. repeat constructor.
  - left.
    exists (t1 ++ [ESetTextContent (p_meta p) (p_unavailable p)])%list, (EConsoleError e).
    repeat split; try done.
    + cbn. by rewrite <- !app_assoc.
    + apply Forall_app. split; [done|]. repeat constructor.
  - destruct guarded; cbn [events outcome thrown].
    + left. exists t1, (EConsoleError e). by repeat split.
    + right. exists t1. by repeat split.
  - right. exists []. by repeat split.
Qed.

End Plans.

(** *** Panels run in turn *)

Section InTurn.
Context `{host : Host}.
Variable panel : panel_spec -> M unit.

Hypothesis panel_shape : forall p env d,
  (exists t last,
     events (panel p env d) = EFetch (metric_url (p_slug p)) NoStore :: t ++ [last] /\
     Forall inner t /\ closes_panel last = true /\ outcome (panel p env d) = Ret tt)
  \/ (exists t,
        events (panel p env d) = EFetch (metric_url (p_slug p)) NoStore :: t /\
        Forall inner t /\ outcome (panel p env d) <> Ret tt).

Lemma in_turn_cons p rest env d :
  in_turn panel (p :: rest) env d = bind (panel p) (fun _ => in_turn panel rest) env d.
Proof.
  destruct rest; [|reflexivity].
  cbn [in_turn]. rewrite bind_run.
  destruct (panel p env d) as [dm evs [[]|e|]]; cbn; [|done..].
  unfold prepend, ret. cbn. by rewrite app_nil_r.
Qed.

(** Whatever the page and the transport, the events of panels run in
    turn are in sequence. *)
Lemma in_turn_in_sequence ps env d :
  in_sequence (map (fun p => metric_url (p_slug p)) ps) (events (in_turn panel ps env d)).
Proof.
  revert d. induction ps as [|p rest IH]; intros d; [constructor|].
  rewrite in_turn_cons, bind_run. cbn [map].
  destruct (panel_shape p env d)
    as [(t & last & Hev & Hin & Hlast & Hout)|(t & Hev & Hin & Hout)].
  - rewrite Hout, Hev. cbn [events prepend].
    rewrite <- app_comm_cons, <- app_assoc. cbn [app].
    by apply seq_next.
  - destruct (outcome (panel p env d)) as [[]|e|]; [done|..];
      cbn [events]; rewrite Hev; by apply seq_open.
Qed.

End InTurn.

(** *** The two scripts *)

Section Scripts.
Context `{host : Host}.

Lemma Site_main_in_turn theme : Site.main theme = in_turn (site_panel theme) site_panels.
Proof. reflexivity. Qed.

Lemma Plain_main_in_turn : Plain.main = in_turn plain_panel plain_panels.
Proof. reflexivity. Qed.


Lemma site_try_run theme p env d :
  site_try theme p env d =
  load_then (render_then_describe (Site.line_chart_config theme)
               (Site.meta_html (p_slug p)) (p_chart p) (p_meta p)) (p_slug p) env d.
Proof. apply Site_try_block_run. Qed.

Lemma plain_try_run p env d :
  plain_try p env d =
  load_then (render_then_describe Plain.line_chart_config Plain.meta_html
               (p_chart p) (p_meta p)) (p_slug p) env d.
Proof. apply Plain_try_block_run. Qed.

Lemma load_then_unreturned after slug env d :
  match outcome (Site.loadMetric slug env d) with
  | Ret _ => True
  | _ => events (load_then after slug env d) = [EFetch (metric_url slug) NoStore]
  end.
Proof.
  rewrite loadMetric_run. unfold load_then. cbn [outcome].
  destruct (network env (metric_url slug) NoStore) as [| |res]; try done.
  destruct (ok res); [|done]. by destruct (body res).
Qed.

(** C3, as the code has it: in both scripts the panels run strictly one
    after another.  The events of a script are in sequence: each panel
    opens with its load, and the next panel's load is issued only after
    the panel has run to its end (its metadata written or its failure
    reported); a panel that does not end is followed by nothing.  In
    particular, when the first load never settles the script issues that
    one request and nothing else.  Within a panel nothing is rendered
    before its own load has returned: unless the load returns a payload,
    the [try] block causes no event but the request. *)
Theorem panels_run_in_sequence theme env d :
  in_sequence (map (fun p => metric_url (p_slug p)) site_panels)
    (events (Site.main theme env d)) /\
  in_sequence (map (fun p => metric_url (p_slug p)) plain_panels)
    (events (Plain.main env d)) /\
  (if settles env "public_health_ypll75_rate" then True
   else Site.main theme env d =
          {| dom_after := d;
             events := [EFetch (metric_url "public_health_ypll75_rate") NoStore];
             outcome := Pending |}) /\
  (if settles env "broadband_adoption_households_share" then True
   else Plain.main env d =
          {| dom_after := d;
             events := [EFetch (metric_url "broadband_adoption_households_share") NoStore];
             outcome := Pending |}) /\
  Forall (fun p =>
            match outcome (Site.loadMetric (p_slug p) env d) with
            | Ret _ => True
            | _ => events (site_try theme p env d)
                   = [EFetch (metric_url (p_slug p)) NoStore]
            end) site_panels /\
  Forall (fun p =>
            match outcome (Plain.loadMetric (p_slug p) env d) with
            | Ret _ => True
            | _ => events (plain_try p env d)
                   = [EFetch (metric_url (p_slug p)) NoStore]
            end) plain_panels.
Proof.
  split.
  { rewrite Site_main_in_turn. apply in_turn_in_sequence.
    intros p env' d1. rewrite site_panel_run. apply panel_plan_shape. }
  split.
  { rewrite Plain_main_in_turn. apply in_turn_in_sequence.
    intros p env' d1. rewrite plain_panel_run. apply panel_plan_shape. }
  split.
  { destruct (settles env "public_health_ypll75_rate") eqn:Hs; [done|].
    rewrite Site_main_in_turn. unfold site_panels.
    rewrite (in_turn_cons (site_panel theme)), bind_run, site_panel_run.
    destruct (panel_plan_cases true (Site.line_chart_config theme)
                (Site.meta_html "public_health_ypll75_rate")
                {| p_slug := "public_health_ypll75_rate"; p_chart := "chart-ypll";
                   p_meta := "meta-ypll"; p_unavailable := "YPLL data unavailable." |}
                env d) as [[Ht Hr]|[(e & Ht & _)|[(e & Ht & _)|[Ht Hr]]]];
    destruct (try_plan_cases (Site.line_chart_config theme)
                (Site.meta_html "public_health_ypll75_rate")
                "chart-ypll" "meta-ypll" "public_health_ypll75_rate" env d)
      as [(ctx & cfg & html & Hd & _ & Hs')|[(e1 & t1 & Hd & _ & _ & Hs')|[Hd _]]];
    cbn [p_slug p_chart p_meta] in *; try congruence;
      rewrite Hd in Ht; try discriminate Ht.
    rewrite Hr, Hd. done. }
  split.
  { destruct (settles env "broadband_adoption_households_share") eqn:Hs; [done|].
    rewrite Plain_main_in_turn. unfold plain_panels, site_panels. cbn [drop].
    rewrite (in_turn_cons plain_panel), bind_run, plain_panel_run.
    destruct (panel_plan_cases false Plain.line_chart_config Plain.meta_html
                {| p_slug := "broadband_adoption_households_share";
                   p_chart := "chart-broadband"; p_meta := "meta-broadband";
                   p_unavailable := "Broadband data unavailable." |}
                env d) as [[Ht Hr]|[(e & Ht & _)|[(e & Ht & _)|[Ht Hr]]]];
    destruct (try_plan_cases Plain.line_chart_config Plain.meta_html
                "chart-broadband" "meta-broadband"
                "broadband_adoption_households_share" env d)
      as [(ctx & cfg & html & Hd & _ & Hs')|[(e1 & t1 & Hd & _ & _ & Hs')|[Hd _]]];
    cbn [p_slug p_chart p_meta] in *; try congruence;
      rewrite Hd in Ht; try discriminate Ht.
    rewrite Hr, Hd. done. }
  split.
  - apply Forall_forall. intros p _. rewrite site_try_run. apply load_then_unreturned.
  - apply Forall_forall. intros p _. rewrite plain_try_run.
    change Plain.loadMetric with Site.loadMetric. apply load_then_unreturned.
Qed.

End Scripts.

(** C3 fails as worded: when the first load of a script never settles,
    the script issues that one request and no other, although the
    transport would answer the other requests; so not every panel is
    launched. *)
Lemma stalled_load_blocks_later_panels :
  events (Site.main sample_theme stalled_env sample_page)
    = [EFetch "data/v1/public_health_ypll75_rate.json" NoStore] /\
  outcome (Site.main sample_theme stalled_env sample_page) = Pending /\
  events (Plain.main stalled_env sample_page)
    = [EFetch "data/v1/broadband_adoption_households_share.json" NoStore] /\
  settles stalled_env "public_health_uninsured_share" = true /\
  settles stalled_env "electricity_renewables_generation_share" = true /\
  ~ launches_every_panel (Site.main sample_theme) site_panels stalled_env sample_page /\
  ~ launches_every_panel Plain.main plain_panels stalled_env sample_page.
Proof.
  assert (Hs : events (Site.main sample_theme stalled_env sample_page)
               = [EFetch "data/v1/public_health_ypll75_rate.json" NoStore])
    by (vm_compute; reflexivity).
  assert (Hp : events (Plain.main stalled_env sample_page)
               = [EFetch "data/v1/broadband_adoption_households_share.json" NoStore])
    by (vm_compute; reflexivity).
  repeat split; try (vm_compute; reflexivity).
  - intros H.
    specialize (H {| p_slug := "public_health_uninsured_share";
                     p_chart := "chart-uninsured"; p_meta := "meta-uninsured";
                     p_unavailable := "Uninsured data unavailable." |}).
    rewrite Hs in H. cbn [p_slug] in H.
    assert (Hin : EFetch (metric_url "public_health_uninsured_share") NoStore
                    ∈ [EFetch "data/v1/public_health_ypll75_rate.json" NoStore])
      by (apply H; by right; left).
    apply list_elem_of_singleton in Hin. discriminate Hin.
  - intros H.
    specialize (H {| p_slug := "electricity_renewables_generation_share";
                     p_chart := "chart-renewables"; p_meta := "meta-renewables";
                     p_unavailable := "Renewables data unavailable." |}).
    rewrite Hp in H. cbn [p_slug] in H.
    assert (Hin : EFetch (metric_url "electricity_renewables_generation_share") NoStore
                    ∈ [EFetch "data/v1/broadband_adoption_households_share.json" NoStore])
      by (apply H; unfold plain_panels, site_panels; cbn [drop]; by right; left).
    apply list_elem_of_singleton in Hin. discriminate Hin.
Qed.

(** * Further properties of the scripts *)

(** ** The paths through a panel *)

Section Paths.
Context `{host : Host}.
Variable guarded : bool.
Variable config : value -> value -> value -> value -> value -> ChartConfig.
Variable template : string -> string -> string -> string.

Lemma load_then_by_outcome (after : value -> M unit) slug env d :
  load_then after slug env d =
  match outcome (Site.loadMetric slug env d) with
  | Ret v => prepend [EFetch (metric_url slug) NoStore] (after v env d)
  | Throw e => thrown d [EFetch (metric_url slug) NoStore] e
  | Pending =>
      {| dom_after := d; events := [EFetch (metric_url slug) NoStore];
         outcome := Pending |}
  end.
Proof.
  rewrite <- load_then_run, bind_run, loadMetric_run. cbn [outcome events dom_after].
  by destruct (match network env (metric_url slug) NoStore with
               | FetchPending => _ | FetchReject => _ | FetchResponse _ => _ end).
Qed.

Lemma catch_plan_present m u e env (d : gmap string element) :
  is_Some (d !! m) ->
  catch_plan guarded m u e env d =
  {| dom_after := set_children m (TextNode u) d;
     events := [ESetTextContent m u; EConsoleError e];
     outcome := Ret tt |}.
Proof. intros [el Hel]. unfold catch_plan, element_ref. by rewrite Hel. Qed.

(** A [try] block that throws [e] from the unchanged document, before a
    container that exists. *)
Lemma panel_plan_thrown p env d evs e :
  load_then (render_then_describe config template (p_chart p) (p_meta p))
    (p_slug p) env d
  = thrown d (EFetch (metric_url (p_slug p)) NoStore :: evs) e ->
  is_Some (d !! p_meta p) ->
  panel_plan guarded config template p env d = reported p d evs e.
Proof.
  intros Htry Hm. unfold panel_plan. rewrite try_catch_run, Htry.
  cbn [outcome events dom_after thrown].
  rewrite catch_plan_present by done.
  reflexivity.
Qed.

Lemma panel_plan_load_throws p env d e :
  outcome (Site.loadMetric (p_slug p) env d) = Throw e ->
  is_Some (d !! p_meta p) ->
  panel_plan guarded config template p env d = reported p d [] e.
Proof.
  intros Hload Hm. apply panel_plan_thrown; [|done].
  by rewrite load_then_by_outcome, Hload.
Qed.

Lemma context_for_canvas c (d : gmap string element) has :
  kind <$> d !! c = Some (Canvas has) ->
  context_for c (d !! c) = inr (context_of c has).
Proof.
  unfold context_for, context_of. destruct (d !! c) as [el|]; [|done].
  cbn. intros [= ->]. by destruct has.
Qed.




Lemma config_for_object ms :
  config_for config (VObj ms) = inr (config_of_members config ms).
Proof. reflexivity. Qed.

(** The run of a panel on an object payload, by what the charting
    library and the formatter do. *)
Lemma panel_plan_object p env d ms has :
  outcome (Site.loadMetric (p_slug p) env d) = Ret (VObj ms) ->
  kind <$> d !! p_chart p = Some (Canvas has) ->
  is_Some (d !! p_meta p) ->
  panel_plan guarded config template p env d =
  match Chart_constructor env (context_of (p_chart p) has) (config_of_members config ms) with
  | Some e =>
      reported p d
        [ENewChart (context_of (p_chart p) has) (config_of_members config ms)] e
  | None =>
      match fragment_of template (VObj ms) with
      | inl e =>
          reported p d
            [ENewChart (context_of (p_chart p) has) (config_of_members config ms)] e
      | inr html =>
          {| dom_after := set_children (p_meta p) (Markup html) d;
             events := [EFetch (metric_url (p_slug p)) NoStore;
                        ENewChart (context_of (p_chart p) has)
                          (config_of_members config ms);
                        ESetInnerHTML (p_meta p) html];
             outcome := Ret tt |}
      end
  end.
Proof.
  intros Hload Hc Hm.
  assert (Href : element_ref d (p_meta p) = Some (p_meta p)).
  { unfold element_ref. by destruct Hm as [el ->]. }
  assert (Htry :
    load_then (render_then_describe config template (p_chart p) (p_meta p))
      (p_slug p) env d
    = prepend [EFetch (metric_url (p_slug p)) NoStore]
        (match Chart_constructor env (context_of (p_chart p) has)
                 (config_of_members config ms) with
         | Some e =>
             thrown d [ENewChart (context_of (p_chart p) has)
                         (config_of_members config ms)] e
         | None =>
             prepend [ENewChart (context_of (p_chart p) has)
                        (config_of_members config ms)]
               (assign (Some (p_meta p)) (fragment_of template (VObj ms)) d)
         end)).
  { rewrite load_then_by_outcome, Hload. unfold render_then_describe.
    by rewrite (context_for_canvas _ _ has), config_for_object, Href. }
  destruct (Chart_constructor env _ _) as [e|].
  { apply panel_plan_thrown; [|done]. by rewrite Htry. }
  unfold assign in Htry.
  destruct (fragment_of template (VObj ms)) as [e|html].
  { apply panel_plan_thrown; [|done]. by rewrite Htry. }
  unfold panel_plan. rewrite try_catch_run, Htry. reflexivity.
Qed.

End Paths.

Section PanelPaths.
Context `{host : Host}.


Lemma payload_members d :
  exists ms,
    Doc.payload_of d = VObj ms /\
    member "years" ms = years_value d /\
    member "hawaii" ms = Doc.series (Doc.hawaii d) /\
    member "other_states_avg" ms = Doc.series (Doc.other_states_avg d) /\
    member "title" ms = VStr (Doc.title d) /\
    member "unit" ms = unit_value d.
Proof.
  pose proof (payload_years d) as Hy. pose proof (payload_hawaii d) as Hh.
  pose proof (payload_other d) as Ho. pose proof (payload_title d) as Ht.
  pose proof (payload_unit d) as Hu.
  unfold Doc.payload_of in *. eexists. split; [reflexivity|].
  cbn [get_field] in *. repeat split; congruence.
Qed.

(** X1: a panel whose load returns a document, on a page that has its
    canvas and its container, with a charting library that accepts,
    causes exactly three events -- the request, the construction of the
    chart of the document on the canvas's context, the assignment of the
    document's fragment to the container -- leaves the fragment as the
    container's only content, and ends normally. *)
Theorem document_is_rendered_and_described theme p d env dom has :
  outcome (Site.loadMetric (p_slug p) env dom) = Ret (Doc.payload_of d) ->
  kind <$> dom !! p_chart p = Some (Canvas has) ->
  is_Some (dom !! p_meta p) ->
  (forall cfg, Chart_constructor env (context_of (p_chart p) has) cfg = None) ->
  site_panel theme p env dom =
    {| dom_after := set_children (p_meta p) (Markup (site_fragment (p_slug p) d)) dom;
       events :=
         [EFetch (metric_url (p_slug p)) NoStore;
          ENewChart (context_of (p_chart p) has)
            (Site.line_chart_config theme (years_value d) (Doc.series (Doc.hawaii d))
               (Doc.series (Doc.other_states_avg d)) (VStr (Doc.title d))
               (unit_value d));
          ESetInnerHTML (p_meta p) (site_fragment (p_slug p) d)];
       outcome := Ret tt |} /\
  plain_panel p env dom =
    {| dom_after := set_children (p_meta p) (Markup (plain_fragment d)) dom;
       events :=
         [EFetch (metric_url (p_slug p)) NoStore;
          ENewChart (context_of (p_chart p) has)
            (Plain.line_chart_config (years_value d) (Doc.series (Doc.hawaii d))
               (Doc.series (Doc.other_states_avg d)) (VStr (Doc.title d))
               (unit_value d));
          ESetInnerHTML (p_meta p) (plain_fragment d)];
       outcome := Ret tt |}.
Proof.
  intros Hload Hc Hm Hlib.
  destruct (payload_members d) as (ms & Hms & Hy & Hh & Ho & Ht & Hu).
  pose proof (fragment_of_document (Site.meta_html (p_slug p)) d) as Hsite.
  pose proof (fragment_of_document Plain.meta_html d) as Hplain.
  rewrite Hms in Hload, Hsite, Hplain.
  split.
  - rewrite site_panel_run, (panel_plan_object _ _ _ _ _ _ ms has) by done.
    rewrite Hlib, Hsite. unfold config_of_members. by rewrite Hy, Hh, Ho, Ht, Hu.
  - rewrite plain_panel_run, (panel_plan_object _ _ _ _ _ _ ms has) by done.
    rewrite Hlib, Hplain. unfold config_of_members. by rewrite Hy, Hh, Ho, Ht, Hu.
Qed.

(** X2: when the load of a panel throws, whatever the cause, and the
    container exists, the panel constructs no chart: it issues its one
    request, sets the container's text to the fallback, reports the very
    error the load threw, and ends normally. *)
Theorem failed_load_shows_fallback theme p env dom e :
  outcome (Site.loadMetric (p_slug p) env dom) = Throw e ->
  is_Some (dom !! p_meta p) ->
  site_panel theme p env dom = reported p dom [] e /\
  plain_panel p env dom = reported p dom [] e /\
  charts (events (reported p dom [] e)) = [] /\
  content <$> dom_after (reported p dom [] e) !! p_meta p
    = Some (TextNode (p_unavailable p)).
Proof.
  intros Hload Hm. split; [|split; [|split]].
  - rewrite site_panel_run. by apply panel_plan_load_throws.
  - rewrite plain_panel_run. by apply panel_plan_load_throws.
  - reflexivity.
  - cbn [reported dom_after]. rewrite lookup_set_children_eq.
    by destruct Hm as [el ->].
Qed.






End PanelPaths.

(** ** How the scripts end, what they request and what they change *)

Section PlanInvariants.
Context `{host : Host}.
Variable guarded : bool.
Variable config : value -> value -> value -> value -> value -> ChartConfig.
Variable template : string -> string -> string -> string.

Lemma set_children_kind m c (d : gmap string element) id :
  kind <$> set_children m c d !! id = kind <$> d !! id.
Proof.
  destruct (decide (id = m)) as [->|Hne].
  - rewrite lookup_set_children_eq. by destruct (d !! m).
  - by rewrite lookup_set_children_ne.
Qed.

(** The events of a [try] block, by how it ends. *)
Lemma try_plan_events c m slug env d :
  let t := load_then (render_then_describe config template c m) slug env d in
  (exists ctx cfg html,
     t = {| dom_after := set_children m (Markup html) d;
            events := [EFetch (metric_url slug) NoStore; ENewChart ctx cfg;
                       ESetInnerHTML m html];
            outcome := Ret tt |})
  \/ (exists e, t = thrown d [EFetch (metric_url slug) NoStore] e)
  \/ (exists e ctx cfg,
        t = thrown d [EFetch (metric_url slug) NoStore; ENewChart ctx cfg] e)
  \/ t = {| dom_after := d; events := [EFetch (metric_url slug) NoStore];
            outcome := Pending |}.
Proof.
  cbn zeta. rewrite load_then_by_outcome.
  destruct (outcome (Site.loadMetric slug env d)) as [v|e|]; [|eauto|eauto 6].
  unfold render_then_describe.
  destruct (context_for c (d !! c)) as [e|ctx]; [right; left; by eexists|].
  destruct (config_for config v) as [e|cfg]; [right; left; by eexists|].
  destruct (Chart_constructor env ctx cfg) as [e|];
    [right; right; left; by eexists _, _, _|].
  unfold assign.
  destruct (fragment_of template v) as [e|html];
    [right; right; left; by eexists _, _, _|].
  destruct (element_ref d m) as [id|] eqn:Href.
  - apply element_ref_Some in Href as [-> _]. left. by eexists _, _, _.
  - right; right; left. by eexists _, _, _.
Qed.

(** A panel keeps every element and its kind. *)
Lemma panel_plan_kinds p env d id :
  kind <$> dom_after (panel_plan guarded config template p env d) !! id
  = kind <$> d !! id.
Proof.
  destruct (panel_plan_cases guarded config template p env d)
    as [[_ ->]|[(e & _ & _ & ->)|[(e & _ & _ & ->)|[_ ->]]]].
  - destruct (try_plan_cases config template (p_chart p) (p_meta p) (p_slug p) env d)
      as [(ctx & cfg & html & -> & _)|[(e & t' & -> & _)|[-> _]]];
      cbn [dom_after thrown]; by rewrite ?set_children_kind.
  - cbn [dom_after]. by rewrite set_children_kind.
  - by destruct guarded.
  - destruct (try_plan_cases config template (p_chart p) (p_meta p) (p_slug p) env d)
      as [(ctx & cfg & html & -> & _)|[(e & t' & -> & _)|[-> _]]];
      cbn [dom_after thrown]; by rewrite ?set_children_kind.
Qed.

(** How a panel ends, when its [catch] block cannot fail. *)
Lemma panel_plan_outcome p env d :
  guarded = true \/ is_Some (d !! p_meta p) ->
  outcome (panel_plan guarded config template p env d)
  = if settles env (p_slug p) then Ret tt else Pending.
Proof.
  intros Hsafe.
  destruct (panel_plan_cases guarded config template p env d)
    as [[Ht ->]|[(e & Ht & _ & ->)|[(e & Ht & Hnone & ->)|[Ht ->]]]];
  destruct (try_plan_cases config template (p_chart p) (p_meta p) (p_slug p) env d)
    as [(ctx & cfg & html & Hd & _ & Hs)|[(e1 & t1 & Hd & _ & _ & Hs)|[Hd Hs]]];
  rewrite Hd in *; cbn [outcome thrown] in *; try discriminate Ht;
    rewrite Hs; try done.
  destruct Hsafe as [->|Hm]; [done|].
  rewrite Hnone in Hm. by destruct Hm.
Qed.


(** What one panel causes, whatever happens: one request, for its metric,
    uncached; at most one chart; at most one write, to its own container;
    at most one report. *)
Lemma panel_plan_counts p env d :
  let evs := events (panel_plan guarded config template p env d) in
  requests evs = [(metric_url (p_slug p), NoStore)] /\
  (length (charts evs) <= 1)%nat /\
  (writes evs = [] \/ writes evs = [p_meta p]) /\
  (length (reports evs) <= 1)%nat.
Proof.
  cbn zeta.
  destruct (panel_plan_cases guarded config template p env d)
    as [[Ht ->]|[(e & Ht & _ & ->)|[(e & Ht & _ & ->)|[Ht ->]]]];
  destruct (try_plan_events (p_chart p) (p_meta p) (p_slug p) env d)
    as [(ctx & cfg & html & Hd)|[(e1 & Hd)|[(e1 & ctx & cfg & Hd)|Hd]]];
  rewrite Hd in *; cbn [outcome thrown events] in *; try discriminate Ht;
  try destruct guarded; cbn; repeat split; auto.
Qed.

End PlanInvariants.

Section TraceFacts.
Context `{host : Host}.

Lemma requests_app evs evs' : requests (evs ++ evs') = (requests evs ++ requests evs')%list.
Proof.
  induction evs as [|ev evs IH]; [done|].
  destruct ev; cbn; by rewrite ?IH.
Qed.

Lemma requests_inner t : Forall inner t -> requests t = [].
Proof.
  induction 1 as [|ev t [Hf _] _ IH]; [done|].
  destruct ev; try discriminate Hf; done.
Qed.

Lemma requests_closing last : closes_panel last = true -> requests [last] = [].
Proof. by destruct last. Qed.

(** The requests of events in sequence are a prefix of the list of
    URLs, each with the cache mode [no-store]. *)
Lemma in_sequence_requests urls evs :
  in_sequence urls evs ->
  exists k, requests evs = take k (map (fun u => (u, NoStore)) urls).
Proof.
  induction 1 as [|url urls t Ht|url urls t last rest Ht Hlast _ [k IH]].
  - by exists 0%nat.
  - exists 1%nat. cbn. rewrite requests_inner by done. by destruct urls.
  - exists (S k). cbn [requests map take].
    rewrite requests_app, requests_inner by done.
    change (last :: rest) with ([last] ++ rest)%list.
    rewrite requests_app, requests_closing by done. cbn. by rewrite IH.
Qed.

End TraceFacts.

Section InTurnOutcome.
Context `{host : Host}.
Variable panel : panel_spec -> M unit.
Variable ready : gmap string element -> panel_spec -> Prop.

Hypothesis ready_kept : forall p o env d, ready d o -> ready (dom_after (panel p env d)) o.

Hypothesis panel_outcome : forall p env d,
  ready d p ->
  outcome (panel p env d) = if settles env (p_slug p) then Ret tt else Pending.

Hypothesis panel_requests : forall p env d,
  requests (events (panel p env d)) = [(metric_url (p_slug p), NoStore)].

(** Panels that cannot throw, run in turn: the script ends normally when
    every load settles and waits for ever otherwise; in the first case
    every metric has been requested. *)
Lemma in_turn_outcome ps env d :
  (forall p, p ∈ ps -> ready d p) ->
  outcome (in_turn panel ps env d) = (if all_settle env ps then Ret tt else Pending) /\
  (all_settle env ps = true ->
   requests (events (in_turn panel ps env d))
   = map (fun p => (metric_url (p_slug p), NoStore)) ps).
Proof.
  revert d. induction ps as [|p rest IH]; intros d Hready; [done|].
  rewrite in_turn_cons, bind_run.
  rewrite panel_outcome by (apply Hready; by left).
  unfold all_settle in *. cbn [forallb map].
  destruct (settles env (p_slug p)); cbn [andb outcome events prepend]; [|done].
  destruct (IH (dom_after (panel p env d))) as [IHout IHreq].
  { intros o Ho. apply ready_kept, Hready. by right. }
  split; [done|]. intros Hall.
  by rewrite requests_app, panel_requests, IHreq.
Qed.

End InTurnOutcome.

Section InTurnKinds.
Context `{host : Host}.
Variable panel : panel_spec -> M unit.

Hypothesis panel_kinds : forall p env d id,
  kind <$> dom_after (panel p env d) !! id = kind <$> d !! id.

Lemma in_turn_kinds ps env d id :
  kind <$> dom_after (in_turn panel ps env d) !! id = kind <$> d !! id.
Proof.
  revert d. induction ps as [|p rest IH]; intros d; [done|].
  rewrite in_turn_cons, bind_run.
  destruct (outcome (panel p env d)); cbn [dom_after prepend];
    by rewrite ?IH, panel_kinds.
Qed.

End InTurnKinds.

Section InTurnRequests.
Context `{host : Host}.
Variable panel : panel_spec -> M unit.

Hypothesis panel_requests : forall p env d,
  requests (events (panel p env d)) = [(metric_url (p_slug p), NoStore)].

(** Panels run in turn request a prefix of their metrics, in order, and
    the first one always. *)
Lemma in_turn_requests ps env d :
  exists k, (Nat.min 1 (length ps) <= k <= length ps)%nat /\
    requests (events (in_turn panel ps env d))
    = take k (map (fun p => (metric_url (p_slug p), NoStore)) ps).
Proof.
  revert d. induction ps as [|p rest IH]; intros d.
  - exists 0%nat. by split; [cbn; lia|].
  - rewrite in_turn_cons, bind_run. cbn [length map].
    destruct (outcome (panel p env d)); cbn [events prepend].
    + destruct (IH (dom_after (panel p env d))) as (k & Hk & Hreq).
      exists (S k). split; [cbn; lia|].
      rewrite requests_app, panel_requests, Hreq. done.
    + exists 1%nat. split; [cbn; lia|]. rewrite panel_requests. by destruct rest.
    + exists 1%nat. split; [cbn; lia|]. rewrite panel_requests. by destruct rest.
Qed.

End InTurnRequests.

(** ** The scripts as a whole *)

Section Strings.

Lemma string_app_inj_l (s a b : string) : s +:+ a = s +:+ b -> a = b.
Proof.
  induction s as [|x s IH]; [done|].
  rewrite !string_app_cons. intros H. injection H as H. by apply IH.
Qed.

Lemma string_snoc_inj (a b : string) x y :
  a +:+ String x "" = b +:+ String y "" -> a = b /\ x = y.
Proof.
  revert b. induction a as [|c a IH]; intros [|c' b]; rewrite ?string_app_cons.
  - intros H. injection H as ->. done.
  - intros H. injection H as _ H. by destruct b.
  - intros H. injection H as _ H. by destruct a.
  - intros H. injection H as -> H. apply IH in H as [-> ->]. done.
Qed.

Lemma string_app_inj_r (s a b : string) : a +:+ s = b +:+ s -> a = b.
Proof.
  revert a b. induction s as [|x s IH]; intros a b.
  - by rewrite !string_app_nil_r.
  - change (String x s) with (String x "" +:+ s).
    rewrite <- !string_app_assoc. intros H. apply IH in H.
    by apply string_snoc_inj in H as [-> _].
Qed.

End Strings.

Section ScriptFacts.
Context `{host : Host}.

(** X8: src/site/assets/main.js never ends with an error, whatever the
    page and the transport: it ends normally when the loads of all four
    panels settle, and otherwise waits for ever at the first load that
    does not; in the first case it has requested all four metrics, each
    once, in the order of the panels, with the cache mode [no-store]. *)
Theorem Site_main_never_throws theme env d :
  outcome (Site.main theme env d)
    = (if all_settle env site_panels then Ret tt else Pending) /\
  (all_settle env site_panels = true ->
   requests (events (Site.main theme env d))
   = [("data/v1/public_health_ypll75_rate.json", NoStore);
      ("data/v1/public_health_uninsured_share.json", NoStore);
      ("data/v1/broadband_adoption_households_share.json", NoStore);
      ("data/v1/electricity_renewables_generation_share.json", NoStore)]).
Proof.
  rewrite Site_main_in_turn.
  apply (in_turn_outcome (site_panel theme) (fun _ _ => True)); try done.
  - intros p env' d' _. rewrite site_panel_run. apply panel_plan_outcome. by left.
  - intros p env' d'. rewrite site_panel_run. apply panel_plan_counts.
Qed.

(** X9: on a page that has both metadata containers,
    src/unnamed/part_000 ends in the same way: normally when both loads
    settle, having requested both metrics in order, and never with an
    error. *)
Theorem Plain_main_with_containers env d :
  is_Some (d !! "meta-broadband") ->
  is_Some (d !! "meta-renewables") ->
  outcome (Plain.main env d)
    = (if all_settle env plain_panels then Ret tt else Pending) /\
  (all_settle env plain_panels = true ->
   requests (events (Plain.main env d))
   = [("data/v1/broadband_adoption_households_share.json", NoStore);
      ("data/v1/electricity_renewables_generation_share.json", NoStore)]).
Proof.
  intros Hb Hr. rewrite Plain_main_in_turn.
  apply (in_turn_outcome plain_panel (fun d p => is_Some (d !! p_meta p))).
  - intros p o env' d' Ho. rewrite plain_panel_run.
    apply (fmap_is_Some kind). rewrite panel_plan_kinds. by apply fmap_is_Some.
  - intros p env' d' Hp. rewrite plain_panel_run. apply panel_plan_outcome. by right.
  - intros p env' d'. rewrite plain_panel_run. apply panel_plan_counts.
  - intros p Hp. cbn in Hp.
    apply elem_of_cons in Hp as [->|Hp]; [done|].
    apply elem_of_cons in Hp as [->|Hp]; [done|].
    by apply elem_of_nil in Hp.
Qed.


(** X13: whatever the page and the transport, the requests of a script
    are a prefix of the list of its panels' metrics, in the order of the
    panels and each with the cache mode [no-store]: the first metric is
    always requested, none is requested twice, and none is requested
    before the one ahead of it. *)
Theorem requests_follow_the_panels theme env d :
  (exists k, (1 <= k <= 4)%nat /\
     requests (events (Site.main theme env d))
     = take k [("data/v1/public_health_ypll75_rate.json", NoStore);
               ("data/v1/public_health_uninsured_share.json", NoStore);
               ("data/v1/broadband_adoption_households_share.json", NoStore);
               ("data/v1/electricity_renewables_generation_share.json", NoStore)]) /\
  (exists k, (1 <= k <= 2)%nat /\
     requests (events (Plain.main env d))
     = take k [("data/v1/broadband_adoption_households_share.json", NoStore);
               ("data/v1/electricity_renewables_generation_share.json", NoStore)]).
Proof.
  split.
  - rewrite Site_main_in_turn.
    destruct (in_turn_requests (site_panel theme)) with (ps := site_panels)
      (env := env) (d := d) as (k & Hk & Hreq).
    { intros p env' d'. rewrite site_panel_run. apply panel_plan_counts. }
    exists k. split; [exact Hk|exact Hreq].
  - rewrite Plain_main_in_turn.
    destruct (in_turn_requests plain_panel) with (ps := plain_panels)
      (env := env) (d := d) as (k & Hk & Hreq).
    { intros p env' d'. rewrite plain_panel_run. apply panel_plan_counts. }
    exists k. split; [exact Hk|exact Hreq].
Qed.

(** X14: whatever the payload, the page and the transport, one panel of
    either script issues exactly one request, for its own metric and
    uncached; constructs at most one chart; writes at most once, and
    then to its own container; and reports at most one error. *)
Theorem panel_effects_are_bounded theme p env d :
  let site := events (site_panel theme p env d) in
  let plain := events (plain_panel p env d) in
  (requests site = [(metric_url (p_slug p), NoStore)] /\
   (length (charts site) <= 1)%nat /\
   (writes site = [] \/ writes site = [p_meta p]) /\
   (length (reports site) <= 1)%nat) /\
  (requests plain = [(metric_url (p_slug p), NoStore)] /\
   (length (charts plain) <= 1)%nat /\
   (writes plain = [] \/ writes plain = [p_meta p]) /\
   (length (reports plain) <= 1)%nat).
Proof.
  cbn zeta. rewrite site_panel_run, plain_panel_run.
  split; apply panel_plan_counts.
Qed.

(** X15: the JSON download link of a panel is the URL its load
    requested; distinct slugs give distinct data URLs and distinct CSV
    links; and no JSON link is the CSV link of any slug. *)
Theorem urls_determine_the_slug s1 s2 :
  Site.jsonUrl s1 = metric_url s1 /\
  (metric_url s1 = metric_url s2 -> s1 = s2) /\
  (Site.csvUrl s1 = Site.csvUrl s2 -> s1 = s2) /\
  Site.jsonUrl s1 <> Site.csvUrl s2.
Proof.
  split; [reflexivity|]. split; [|split].
  - unfold metric_url. intros H.
    apply string_app_inj_l in H. by apply string_app_inj_r in H.
  - unfold Site.csvUrl. intros H.
    apply string_app_inj_l in H. by apply string_app_inj_r in H.
  - unfold Site.jsonUrl, Site.csvUrl. intros H.
    change "data/v1/csv/" with ("data/v1/" +:+ "csv/") in H.
    rewrite (string_app_assoc "data/v1/") in H.
    apply string_app_inj_l in H.
    change ".json" with (".jso" +:+ "n") in H.
    change ".csv" with (".cs" +:+ "v") in H.
    rewrite <- !string_app_assoc in H.
    apply string_snoc_inj in H as [_ H]. discriminate H.
Qed.

Lemma fragment_of_alike (template template' : string -> string -> string -> string)
    payload :
  (exists e, fragment_of template payload = inl e /\
             fragment_of template' payload = inl e)
  \/ (exists src upd items,
        fragment_of template payload = inr (template src upd items) /\
        fragment_of template' payload = inr (template' src upd items)).
Proof.
  unfold fragment_of.
  destruct (get_field payload "source") as [e|source]; [left; by eexists|].
  destruct (get_field payload "notes") as [e|notes_v]; [left; by eexists|].
  destruct (js_or notes_v (VArr [])) as [| | | | |items|]; try (left; by eexists).
  destruct (map_li items) as [e|lis]; [left; by eexists|].
  destruct (get_field (js_or source (VObj [])) "human_url") as [e|human_url];
    [left; by eexists|].
  destruct (srcLine human_url) as [e|src_line]; [left; by eexists|].
  destruct (get_field payload "last_updated_utc") as [e|v]; [left; by eexists|].
  destruct (updated v) as [e|upd]; [left; by eexists|].
  right. by eexists _, _, _.
Qed.

(** X16: the two formatters end alike on the same payload and container:
    neither ever waits; when one throws, the other throws the same
    error, and neither has written anything or changed the page; and on
    a page without the container both throw for every payload. *)
Theorem formatters_fail_alike slug cid payload env dom :
  let site := Site.setMetaAndDownloads slug cid payload env dom in
  let plain := Plain.setMeta (element_ref dom cid) payload env dom in
  outcome plain = outcome site /\
  outcome site <> Pending /\
  (forall e, outcome site = Throw e -> site = thrown dom [] e /\ plain = thrown dom [] e) /\
  (dom !! cid = None -> exists e, site = thrown dom [] e /\ plain = thrown dom [] e).
Proof.
  cbn zeta. rewrite setMetaAndDownloads_run, setMeta_run.
  destruct (fragment_of_alike (Site.meta_html slug) Plain.meta_html payload)
    as [(e & -> & ->)|(src & upd & items & -> & ->)].
  - cbn. split; [done|]. split; [done|]. split.
    + by intros e' [= <-].
    + intros _. by exists e.
  - unfold assign, element_ref.
    destruct (dom !! cid) as [el|]; cbn.
    + split; [done|]. split; [done|]. split; [by intros e' [=]|by intros [=]].
    + split; [done|]. split; [done|]. split.
      * by intros e' [= <-].
      * intros _. by eexists.
Qed.

End ScriptFacts.

(** ** The paths of a panel and the ends of the scripts, on examples *)

(** The broadband panel of the sample page, served the sample document,
    is rendered in both scripts. *)
Lemma document_is_rendered_and_described_witness :
  outcome (Site.loadMetric (p_slug broadband_panel) sample_env sample_page)
    = Ret (Doc.payload_of sample_doc) /\
  kind <$> sample_page !! p_chart broadband_panel = Some (Canvas true) /\
  is_Some (sample_page !! p_meta broadband_panel) /\
  (forall cfg,
     Chart_constructor sample_env (context_of (p_chart broadband_panel) true) cfg = None) /\
  outcome (site_panel sample_theme broadband_panel sample_env sample_page) = Ret tt /\
  events (plain_panel broadband_panel sample_env sample_page)
    = [EFetch "data/v1/broadband_adoption_households_share.json" NoStore;
       ENewChart (Some (Ctx2d "chart-broadband"))
         (Plain.line_chart_config (years_value sample_doc)
            (Doc.series (Doc.hawaii sample_doc))
            (Doc.series (Doc.other_states_avg sample_doc))
            (VStr (Doc.title sample_doc)) (unit_value sample_doc));
       ESetInnerHTML "meta-broadband" (plain_fragment sample_doc)].
Proof.
  assert (H1 : outcome (Site.loadMetric (p_slug broadband_panel) sample_env sample_page)
               = Ret (Doc.payload_of sample_doc)) by reflexivity.
  assert (H2 : kind <$> sample_page !! p_chart broadband_panel = Some (Canvas true))
    by reflexivity.
  assert (H3 : is_Some (sample_page !! p_meta broadband_panel)) by (by eexists).
  assert (H4 : forall cfg,
             Chart_constructor sample_env (context_of (p_chart broadband_panel) true) cfg
             = None) by reflexivity.
  do 4 (split; [assumption|]).
  destruct (document_is_rendered_and_described sample_theme broadband_panel sample_doc
              sample_env sample_page true H1 H2 H3 H4) as [Hs Hp].
  rewrite Hs, Hp. split; reflexivity.
Defined.

(** The YPLL metric is not found: its panel shows the fallback text. *)
Lemma failed_load_shows_fallback_witness :
  outcome (Site.loadMetric (p_slug ypll_panel) sample_env sample_page)
    = Throw (Error "Failed to load public_health_ypll75_rate") /\
  is_Some (sample_page !! p_meta ypll_panel) /\
  events (site_panel sample_theme ypll_panel sample_env sample_page)
    = [EFetch "data/v1/public_health_ypll75_rate.json" NoStore;
       ESetTextContent "meta-ypll" "YPLL data unavailable.";
       EConsoleError (Error "Failed to load public_health_ypll75_rate")].
Proof.
  assert (H1 : outcome (Site.loadMetric (p_slug ypll_panel) sample_env sample_page)
               = Throw (Error "Failed to load public_health_ypll75_rate"))
    by reflexivity.
  assert (H2 : is_Some (sample_page !! p_meta ypll_panel)) by (by eexists).
  do 2 (split; [assumption|]).
  destruct (failed_load_shows_fallback sample_theme ypll_panel sample_env sample_page
              _ H1 H2) as (Hs & _).
  rewrite Hs. reflexivity.
Defined.






(** On the sample page both loads of src/unnamed/part_000 settle and the
    script ends normally. *)
Lemma Plain_main_with_containers_witness :
  is_Some (sample_page !! "meta-broadband") /\
  is_Some (sample_page !! "meta-renewables") /\
  outcome (Plain.main sample_env sample_page) = Ret tt.
Proof.
  assert (H1 : is_Some (sample_page !! "meta-broadband")) by (by eexists).
  assert (H2 : is_Some (sample_page !! "meta-renewables")) by (by eexists).
  do 2 (split; [assumption|]).
  destruct (Plain_main_with_containers sample_env sample_page H1 H2) as [Hout _].
  rewrite Hout. reflexivity.
Defined.


(** ** What the scripts read of the page *)

Section Reads.
Context `{host : Host}.
Variable guarded : bool.
Variable config : value -> value -> value -> value -> value -> ChartConfig.
Variable template : string -> string -> string -> string.

Lemma context_for_kinds c (el el' : option element) :
  kind <$> el' = kind <$> el -> context_for c el' = context_for c el.
Proof.
  destruct el as [e|], el' as [e'|]; cbn; intros H; try discriminate H; [|done].
  injection H as ->. done.
Qed.

Lemma element_ref_kinds (d d' : gmap string element) id :
  kind <$> d' !! id = kind <$> d !! id -> element_ref d' id = element_ref d id.
Proof.
  unfold element_ref. by destruct (d !! id), (d' !! id).
Qed.

Lemma try_plan_reads_kinds c m slug env (d d' : gmap string element) :
  kind <$> d' !! c = kind <$> d !! c ->
  kind <$> d' !! m = kind <$> d !! m ->
  events (load_then (render_then_describe config template c m) slug env d')
    = events (load_then (render_then_describe config template c m) slug env d) /\
  outcome (load_then (render_then_describe config template c m) slug env d')
    = outcome (load_then (render_then_describe config template c m) slug env d).
Proof.
  intros Hc Hm.
  unfold load_then, render_then_describe, assign.
  rewrite (context_for_kinds c _ _ Hc), (element_ref_kinds _ _ _ Hm).
  repeat case_match; done.
Qed.

(** A panel reads of the page only whether its canvas and its container
    exist, and of which kind they are. *)
Lemma panel_plan_reads_kinds p env (d d' : gmap string element) :
  kind <$> d' !! p_chart p = kind <$> d !! p_chart p ->
  kind <$> d' !! p_meta p = kind <$> d !! p_meta p ->
  events (panel_plan guarded config template p env d')
    = events (panel_plan guarded config template p env d) /\
  outcome (panel_plan guarded config template p env d')
    = outcome (panel_plan guarded config template p env d).
Proof.
  intros Hc Hm.
  destruct (try_plan_reads_kinds (p_chart p) (p_meta p) (p_slug p) env d d' Hc Hm)
    as [Hev Hout].
  pose proof (element_ref_kinds _ _ _ Hm) as Href.
  unfold panel_plan. rewrite !try_catch_run, Hout.
  destruct (try_plan_cases config template (p_chart p) (p_meta p) (p_slug p) env d)
    as [(ctx & cfg & html & Hd & _)|[(e & t1 & Hd & _)|[Hd _]]];
  destruct (try_plan_cases config template (p_chart p) (p_meta p) (p_slug p) env d')
    as [(ctx' & cfg' & html' & Hd' & _)|[(e' & t1' & Hd' & _)|[Hd' _]]];
  rewrite Hd, Hd' in *; cbn [outcome events dom_after thrown] in *;
    try discriminate Hout; try done.
  injection Hout as ->. unfold catch_plan. rewrite Href.
  destruct (element_ref d (p_meta p)); cbn [prepend events outcome dom_after].
  - by rewrite Hev.
  - destruct guarded; cbn [thrown events outcome dom_after]; by rewrite Hev.
Qed.

End Reads.

Section InTurnReads.
Context `{host : Host}.
Variable panel : panel_spec -> M unit.

Hypothesis panel_reads : forall p env (d d' : gmap string element),
  (forall id, kind <$> d' !! id = kind <$> d !! id) ->
  events (panel p env d') = events (panel p env d) /\
  outcome (panel p env d') = outcome (panel p env d).

Hypothesis panel_kinds : forall p env d id,
  kind <$> dom_after (panel p env d) !! id = kind <$> d !! id.

Lemma in_turn_reads ps env (d d' : gmap string element) :
  (forall id, kind <$> d' !! id = kind <$> d !! id) ->
  events (in_turn panel ps env d') = events (in_turn panel ps env d) /\
  outcome (in_turn panel ps env d') = outcome (in_turn panel ps env d).
Proof.
  revert d d'. induction ps as [|p rest IH]; intros d d' Hk; [done|].
  rewrite !in_turn_cons, !bind_run.
  destruct (panel_reads p env d d' Hk) as [Hev Hout]. rewrite Hout, Hev.
  destruct (outcome (panel p env d)); cbn [events outcome prepend]; [|done..].
  destruct (IH (dom_after (panel p env d)) (dom_after (panel p env d'))) as [-> ->];
    [|done].
  intros id. by rewrite !panel_kinds.
Qed.

End InTurnReads.

Section PageContents.
Context `{host : Host}.

(** X17: the scripts never read the contents of the page: on two pages
    that have elements of the same kinds under the same ids, whatever
    those elements contain, a script issues the same requests, constructs
    the same charts, writes the same markup and texts, reports the same
    errors and ends in the same way. *)
Theorem scripts_never_read_contents theme env (d d' : gmap string element) :
  (forall id, kind <$> d' !! id = kind <$> d !! id) ->
  (events (Site.main theme env d') = events (Site.main theme env d) /\
   outcome (Site.main theme env d') = outcome (Site.main theme env d)) /\
  (events (Plain.main env d') = events (Plain.main env d) /\
   outcome (Plain.main env d') = outcome (Plain.main env d)).
Proof.
  intros Hk. split.
  - rewrite Site_main_in_turn. apply in_turn_reads; [| |done].
    + intros p env' d1 d2 H. rewrite !site_panel_run.
      by apply panel_plan_reads_kinds.
    + intros p env' d1 id. rewrite site_panel_run. apply panel_plan_kinds.
  - rewrite Plain_main_in_turn. apply in_turn_reads; [| |done].
    + intros p env' d1 d2 H. rewrite !plain_panel_run.
      by apply panel_plan_reads_kinds.
    + intros p env' d1 id. rewrite plain_panel_run. apply panel_plan_kinds.
Qed.

End PageContents.

(** The sample page with an old text in the YPLL container. *)
Lemma scripts_never_read_contents_witness :
  (forall id,
     kind <$> <["meta-ypll" := {| kind := Block; content := TextNode "old" |}]> sample_page
                !! id
     = kind <$> sample_page !! id) /\
  events (Site.main sample_theme sample_env
            (<["meta-ypll" := {| kind := Block; content := TextNode "old" |}]> sample_page))
    = events (Site.main sample_theme sample_env sample_page).
Proof.
  assert (H1 : forall id,
             kind <$> <["meta-ypll" := {| kind := Block; content := TextNode "old" |}]>
                        sample_page !! id
             = kind <$> sample_page !! id).
  { intros id. destruct (decide (id = "meta-ypll")) as [->|Hne]; [reflexivity|].
    by rewrite lookup_insert_ne. }
  split; [exact H1|].
  destruct (scripts_never_read_contents sample_theme sample_env sample_page _ H1)
    as [[Hev _] _].
  exact Hev.
Defined.

(** ** Failures that stay in their panel *)

Section CaughtPlans.
Context `{host : Host}.
Variable guarded : bool.
Variable config : value -> value -> value -> value -> value -> ChartConfig.
Variable template : string -> string -> string -> string.



End CaughtPlans.

Section InTurnConcat.
Context `{host : Host}.
Variable panel : panel_spec -> M unit.

Hypothesis panel_reads : forall p env (d d' : gmap string element),
  (forall id, kind <$> d' !! id = kind <$> d !! id) ->
  events (panel p env d') = events (panel p env d) /\
  outcome (panel p env d') = outcome (panel p env d).

Hypothesis panel_kinds : forall p env d id,
  kind <$> dom_after (panel p env d) !! id = kind <$> d !! id.


End InTurnConcat.

Section Contained.
Context `{host : Host}.


End Contained.



(** C6, at the sample document, whose region series has no value for
    2020: hovering 2019 shows a row per series, each with its value and
    the unit; hovering 2020 shows the row of the average series alone.
    The callback would return the placeholder row for the region series,
    but the library hands it no item for a point without a value, so the
    gap is omitted from the tooltip, not shown as a placeholder. *)
Lemma gap_has_no_tooltip_row :
  events (site_render sample_theme (Some (Ctx2d "chart-broadband")) sample_doc
            sample_env sample_page)
    = [ENewChart (Some (Ctx2d "chart-broadband")) sample_config] /\
  Doc.hawaii sample_doc = [Some "1.0"; None] /\
  tooltip_rows sample_config 0
    = [inr "Hawaiʻi: 1.0 %"; inr "Other U.S. States (avg): 2.0 %"] /\
  tooltip_rows sample_config 1 = [inr "Other U.S. States (avg): 2.5 %"] /\
  (forall ds, ds ∈ datasets (chart_data sample_config) ->
     label ds = "Hawaiʻi" ->
     Site.tooltip_label_callback (unit_value sample_doc)
       {| dataset := ds; parsed_y := PNull |} = inr "Hawaiʻi: — %") /\
  ~ gaps_show_placeholder sample_config (Doc.unit sample_doc).
Proof.
  split; [reflexivity|]. split; [reflexivity|].
  split; [vm_compute; reflexivity|]. split; [vm_compute; reflexivity|].
  split.
  { intros ds _ Hl. unfold Site.tooltip_label_callback.
    cbn [dataset parsed_y]. rewrite Hl. reflexivity. }
  intros H.
  specialize (H 1%nat
                {| label := "Hawaiʻi"; data := Doc.series (Doc.hawaii sample_doc);
                   borderColor := Some (Site.HI sample_theme);
                   backgroundColor := Some (Site.HI sample_theme);
                   borderWidth := 2; borderDash := None;
                   tension := 2 # 10; pointRadius := Some 2 |}).
  assert (Hrows : tooltip_rows sample_config 1 = [inr "Other U.S. States (avg): 2.5 %"])
    by (vm_compute; reflexivity).
  rewrite Hrows in H.
  apply list_elem_of_singleton in H; [discriminate H| by left | reflexivity].
Qed.
